(** * LifeOS x TANA backend: bearer tokens, bookings, reflections, dashboard

    A shallow embedding of [src/main.py] and [src/schemas.py].

    - Python dictionaries are finite maps from field names to dynamically
      typed values; a stored document additionally carries the [_id] the
      store gave it at insertion.
    - The document store is a map from collection names to the list of the
      collection's documents in insertion order; [find_one] returns the
      first match, [update_one] changes the first match.
    - Endpoints are computations in a state-and-exception monad over the
      [World]: an exception keeps the writes made before it was raised (the
      store has no transactions).
    - The clock, the store's identifier generator and the random token
      generator are oracles held in the [World]; each call consumes one
      reading.
    - Text is ASCII: [lower] maps [A-Z] to [a-z] and leaves other bytes. *)

From Stdlib Require Import ZArith String Ascii List Bool Lia SpecFloat.
From stdpp Require Import base option list gmap strings pretty.

Local Open Scope string_scope.
Local Open Scope Z_scope.

(** ** Text *)

Definition ascii_lower (c : ascii) : ascii :=
  let n := nat_of_ascii c in
  if ((65 <=? n) && (n <=? 90))%nat then ascii_of_nat (n + 32) else c.

(** [str.lower()] *)
Fixpoint lower (s : string) : string :=
  match s with
  | EmptyString => EmptyString
  | String c s' => String (ascii_lower c) (lower s')
  end.

(** [s.startswith(prefix)] *)
Fixpoint startswith (s prefix : string) : bool :=
  match prefix, s with
  | EmptyString, _ => true
  | String _ _, EmptyString => false
  | String p prefix', String c s' => Ascii.eqb c p && startswith s' prefix'
  end.

(** [sub in s] *)
Fixpoint contains (s sub : string) : bool :=
  startswith s sub ||
  match s with
  | EmptyString => false
  | String _ s' => contains s' sub
  end.

(** [s.split(sep)] for a separator of one character *)
Fixpoint split (s : string) (sep : ascii) : list string :=
  match s with
  | EmptyString => [EmptyString]
  | String c s' =>
      if Ascii.eqb c sep then EmptyString :: split s' sep
      else match split s' sep with
           | [] => [String c EmptyString]
           | w :: ws => String c w :: ws
           end
  end.

(** ** Store identifiers (bson.ObjectId)

    An identifier is kept as the hexadecimal text of its bytes, in lower
    case, which is what [str] prints. The constructor takes a text of 24
    characters that [bytes.fromhex] accepts: pairs of hexadecimal digits of
    either case, with ASCII whitespace allowed before a pair and at the
    end. Every identifier the store issues has 12 bytes; one read from a
    text with whitespace has fewer, and equals none of them. *)

Record ObjectId := mkObjectId { hex : string }.

Definition is_hex_digit (c : ascii) : bool :=
  let n := nat_of_ascii c in
  (((48 <=? n) && (n <=? 57)) || ((97 <=? n) && (n <=? 102))
   || ((65 <=? n) && (n <=? 70)))%nat.

(** ASCII whitespace: tab, line feed, vertical tab, form feed, carriage
    return and space. *)
Definition is_space (c : ascii) : bool :=
  let n := nat_of_ascii c in
  (((9 <=? n) && (n <=? 13)) || (n =? 32))%nat.

(** [bytes.fromhex(s)], the bytes given as their hexadecimal text
    ([.hex()]); [None] stands for [ValueError]. *)
Fixpoint fromhex (s : string) : option string :=
  match s with
  | EmptyString => Some EmptyString
  | String c s' =>
      if is_space c then fromhex s'
      else match s' with
           | EmptyString => None
           | String d s'' =>
               if is_hex_digit c && is_hex_digit d
               then match fromhex s'' with
                    | Some bytes =>
                        Some (String (ascii_lower c)
                                (String (ascii_lower d) bytes))
                    | None => None
                    end
               else None
           end
  end.

(** [ObjectId(value)]: [None] stands for [InvalidId] *)
Definition ObjectId_of_str (value : string) : option ObjectId :=
  if (String.length value =? 24)%nat
  then match fromhex value with
       | Some bytes => Some (mkObjectId bytes)
       | None => None
       end
  else None.

(** [str(oid)] *)
Definition str_ObjectId (o : ObjectId) : string := hex o.

#[global] Instance ObjectId_eq_dec : EqDecision ObjectId.
Proof. solve_decision. Defined.

(** ** Values and documents *)

Inductive value :=
| VNone
| VInt (z : Z)
| VStr (s : string)
| VOid (o : ObjectId)
| VDate (t : Z).   (* an instant, in microseconds since the epoch *)

#[global] Instance value_eq_dec : EqDecision value.
Proof. solve_decision. Defined.

(** A Python [dict] with text keys. *)
Abbreviation dict := (gmap string value).

(** A document of a collection. *)
Record Document := mkDocument { _id : ObjectId; fields : dict }.

(** [doc.get(key, default)] *)
Definition get (d : dict) (key : string) (default : value) : value :=
  match d !! key with
  | Some v => v
  | None => default
  end.

(** Truth value of a Python object. *)
Definition truthy (v : value) : bool :=
  match v with
  | VNone => false
  | VInt z => negb (Z.eqb z 0)
  | VStr s => negb (String.eqb s "")
  | VOid _ => true
  | VDate _ => true
  end.

(** ** Exceptions, results, the world *)

Inductive Exception :=
| HTTPException (status_code : Z) (detail : string)
| KeyError (key : string)
| TypeError
| ValueError
| IndexError
| ZeroDivisionError
| OverflowError
| ValidationError.

Inductive Result (A : Type) :=
| Return (a : A)
| Raise (e : Exception).
Arguments Return {A} a.
Arguments Raise {A} e.

Record World := mkWorld {
  db : gmap string (list Document);
  clock : nat -> Z;
  object_ids : nat -> ObjectId;
  uuids : nat -> string
}.

Definition M (A : Type) : Type := World -> Result A * World.

Definition ret {A} (a : A) : M A := fun w => (Return a, w).

Definition raise {A} (e : Exception) : M A := fun w => (Raise e, w).

Definition bind {A B} (m : M A) (k : A -> M B) : M B :=
  fun w =>
    match m w with
    | (Return a, w') => k a w'
    | (Raise e, w') => (Raise e, w')
    end.

Notation "'let!' x ':=' m 'in' k" := (bind m (fun x => k))
  (at level 10, x name, m at level 100, k at level 200).

(** Lifting of a pure fallible step. *)
Definition lift {A} (r : Result A) : M A := fun w => (r, w).

(** [datetime.now(timezone.utc)] *)
Definition datetime_now : M Z :=
  fun w => (Return (clock w 0%nat),
            mkWorld (db w) (fun n => clock w (S n)) (object_ids w) (uuids w)).

(** [timedelta(days=7)] *)
Definition seven_days : Z := 7 * 86400 * 1000000.

(** [uuid.uuid4().hex] *)
Definition uuid4_hex : M string :=
  fun w => (Return (uuids w 0%nat),
            mkWorld (db w) (clock w) (object_ids w) (fun n => uuids w (S n))).

(** ** The document store *)

(** [db[name]] *)
Definition collection (w : World) (name : string) : list Document :=
  match db w !! name with
  | Some docs => docs
  | None => []
  end.

(** Equality filter [{key: v}]: a null matches a missing field. *)
Definition matches (key : string) (v : value) (d : Document) : bool :=
  if String.eqb key "_id" then bool_decide (VOid (_id d) = v)
  else match fields d !! key with
       | Some x => bool_decide (x = v)
       | None => bool_decide (v = VNone)
       end.

(** [db[name].find_one({key: v})] *)
Definition find_one (name key : string) (v : value) : M (option Document) :=
  fun w => (Return (List.find (matches key v) (collection w name)), w).

(** An instant as a BSON datetime holds it: whole milliseconds, the
    microseconds below them dropped. *)
Definition milliseconds (t : Z) : Z := t / 1000 * 1000.

(** A value as the store keeps it and gives it back. *)
Definition bson_value (v : value) : value :=
  match v with
  | VDate t => VDate (milliseconds t)
  | _ => v
  end.

(** A document as the store keeps it. *)
Definition bson (doc : dict) : dict := bson_value <$> doc.

(** [db[name].insert_one(doc)], returning [inserted_id] *)
Definition insert_one (name : string) (doc : dict) : M ObjectId :=
  fun w =>
    let oid := object_ids w 0%nat in
    (Return oid,
     mkWorld (<[name := (collection w name
                         ++ [mkDocument oid (bson doc)])%list]> (db w))
             (clock w) (fun n => object_ids w (S n)) (uuids w)).

Fixpoint update_first (key : string) (v : value) (set : dict)
    (docs : list Document) : list Document :=
  match docs with
  | [] => []
  | d :: docs' =>
      if matches key v d then mkDocument (_id d) (set ∪ fields d) :: docs'
      else d :: update_first key v set docs'
  end.

(** [db[name].update_one({key: v}, {"$set": set})] *)
Definition update_one (name key : string) (v : value) (set : dict) : M unit :=
  fun w =>
    (Return tt,
     mkWorld (alter (update_first key v (bson set)) name (db w))
             (clock w) (object_ids w) (uuids w)).

(** ** Library functions left uninterpreted

    The text forms accepted by [int()], the text printed for a datetime,
    the digest and the process environment are parameters of the model:
    no result below depends on what they compute. *)

Class Runtime := {
  int_of_text : string -> option Z;      (* [int(s)]; [None] is ValueError *)
  str_of_datetime : Z -> string;         (* [str(d)] *)
  sha256_hexdigest : string -> string;   (* [hashlib.sha256(b).hexdigest()] *)
  getenv : string -> option string       (* [os.getenv(name)] *)
}.

Section Builtins.
Context `{Runtime}.

(** [int(v)] *)
Definition py_int (v : value) : Result Z :=
  match v with
  | VInt z => Return z
  | VStr s => match int_of_text s with
              | Some z => Return z
              | None => Raise ValueError
              end
  | VNone | VOid _ | VDate _ => Raise TypeError
  end.

(** [str(v)], as an f-string field prints it *)
Definition py_str (v : value) : string :=
  match v with
  | VNone => "None"
  | VInt z => pretty z
  | VStr s => s
  | VOid o => str_ObjectId o
  | VDate t => str_of_datetime t
  end.
End Builtins.

(** [d[key]] *)
Definition getitem (d : dict) (key : string) : Result value :=
  match d !! key with
  | Some v => Return v
  | None => Raise (KeyError key)
  end.

(** [l[i]] *)
Definition index {A} (l : list A) (i : nat) : Result A :=
  match l !! i with
  | Some x => Return x
  | None => Raise IndexError
  end.

(** [v < now] for a datetime [now] *)
Definition lt_datetime (v : value) (now : Z) : Result bool :=
  match v with
  | VDate t => Return (t <? now)
  | _ => Raise TypeError
  end.

Definition optional_str (o : option string) : value :=
  match o with
  | Some s => VStr s
  | None => VNone
  end.

Definition optional_int (o : option Z) : value :=
  match o with
  | Some z => VInt z
  | None => VNone
  end.

Definition optional_datetime (o : option Z) : value :=
  match o with
  | Some t => VDate t
  | None => VNone
  end.

(** ** schemas.py *)

Inductive Purpose := Healing | Growth | Direction.

Definition Purpose_str (p : Purpose) : string :=
  match p with
  | Healing => "Healing"
  | Growth => "Growth"
  | Direction => "Direction"
  end.

Inductive Status := requested | scheduled | completed | cancelled.

Definition Status_str (s : Status) : string :=
  match s with
  | requested => "requested"
  | scheduled => "scheduled"
  | completed => "completed"
  | cancelled => "cancelled"
  end.

Inductive Pillar := Mind | Money | Meaning.

Definition Pillar_str (p : Pillar) : string :=
  match p with
  | Mind => "Mind"
  | Money => "Money"
  | Meaning => "Meaning"
  end.

Module User.
Record t := mk {
  name : string;
  email : string;
  purpose : Purpose;
  age : option Z;
  tana_mind : Z;
  tana_money : Z;
  tana_meaning : Z;
  total_sessions : Z;
  sessions_used : Z
}.

(** The field constraints: [age] within 0..120 when given, the scores and
    the session counts not negative. *)
Definition valid (u : t) : bool :=
  match age u with
  | Some a => (0 <=? a) && (a <=? 120)
  | None => true
  end
  && (0 <=? tana_mind u) && (0 <=? tana_money u) && (0 <=? tana_meaning u)
  && (0 <=? total_sessions u) && (0 <=? sessions_used u).

(** [User(...)]: construction validates the fields. *)
Definition new (name email : string) (purpose : Purpose) (age : option Z)
    (tana_mind tana_money tana_meaning total_sessions sessions_used : Z)
    : Result t :=
  let u := mk name email purpose age tana_mind tana_money tana_meaning
              total_sessions sessions_used in
  if valid u then Return u else Raise ValidationError.

Definition model_dump (u : t) : dict :=
  <["name" := VStr (name u)]> (
  <["email" := VStr (email u)]> (
  <["purpose" := VStr (Purpose_str (purpose u))]> (
  <["age" := optional_int (age u)]> (
  <["tana_mind" := VInt (tana_mind u)]> (
  <["tana_money" := VInt (tana_money u)]> (
  <["tana_meaning" := VInt (tana_meaning u)]> (
  <["total_sessions" := VInt (total_sessions u)]> (
  <["sessions_used" := VInt (sessions_used u)]> ∅)))))))).
End User.

Module SignupRequest.
Record t := mk {
  name : string;
  email : string;
  password : string;
  purpose : Purpose;
  age : option Z
}.
End SignupRequest.

Module Session.
Record t := mk {
  user_id : string;
  topic : string;
  date : string;
  time : string;
  feedback : option string;
  spatial_url : option string;
  status : Status
}.

Definition model_dump (s : t) : dict :=
  <["user_id" := VStr (user_id s)]> (
  <["topic" := VStr (topic s)]> (
  <["date" := VStr (date s)]> (
  <["time" := VStr (time s)]> (
  <["feedback" := optional_str (feedback s)]> (
  <["spatial_url" := optional_str (spatial_url s)]> (
  <["status" := VStr (Status_str (status s))]> ∅)))))).
End Session.

Module Reflection.
Record t := mk {
  user_id : string;
  pillar : Pillar;
  entry_text : string;
  mood : option string;
  created_at : option Z
}.

Definition model_dump (r : t) : dict :=
  <["user_id" := VStr (user_id r)]> (
  <["pillar" := VStr (Pillar_str (pillar r))]> (
  <["entry_text" := VStr (entry_text r)]> (
  <["mood" := optional_str (mood r)]> (
  <["created_at" := optional_datetime (created_at r)]> ∅)))).
End Reflection.

(** ** main.py *)

Module AuthUser.
Record t := mk { id : string; name : string; email : string }.

(** [AuthUser(id=..., name=..., email=...)]: every field must be text. *)
Definition new (id : string) (name email : value) : Result t :=
  match name, email with
  | VStr name, VStr email => Return (mk id name email)
  | _, _ => Raise ValidationError
  end.
End AuthUser.

Section Utilities.
Context `{Runtime}.

Definition hash_password (password : string) : string :=
  let salt := default "tana_salt" (getenv "AUTH_SALT") in
  sha256_hexdigest (password +:+ salt).
End Utilities.

Definition generate_token : M string := uuid4_hex.

Definition to_object_id (value : string) : M ObjectId :=
  match ObjectId_of_str value with
  | Some oid => ret oid
  | None => raise (HTTPException 400 "Invalid ID format")
  end.

Definition get_current_user (authorization : option string) : M AuthUser.t :=
  match authorization with
  | None =>
      raise (HTTPException 401 "Missing or invalid authorization header")
  | Some authorization =>
      if negb (truthy (VStr authorization))
         || negb (startswith (lower authorization) "bearer ")
      then raise (HTTPException 401 "Missing or invalid authorization header")
      else
        let! token := lift (index (split authorization " ") 1) in
        let! token_doc := find_one "auth_token" "token" (VStr token) in
        match token_doc with
        | None => raise (HTTPException 401 "Invalid token")
        | Some token_doc =>
            let! expired :=
              (if truthy (get (fields token_doc) "expires_at" VNone)
               then let! expires_at :=
                      lift (getitem (fields token_doc) "expires_at") in
                    let! now := datetime_now in
                    lift (lt_datetime expires_at now)
               else ret false) in
            if expired then raise (HTTPException 401 "Token expired")
            else
              let! user_id := lift (getitem (fields token_doc) "user_id") in
              let! user := find_one "user" "_id" user_id in
              match user with
              | None => raise (HTTPException 401 "User not found")
              | Some user =>
                  lift (AuthUser.new (str_ObjectId (_id user))
                          (get (fields user) "name" (VStr ""))
                          (get (fields user) "email" (VStr "")))
              end
        end
  end.

(** Modelled from the spec: [create_document] of the [database] module,
    which is not among the sources. The spec has the booking endpoint
    persist the Session as it is and the reflection endpoint persist the
    Reflection, both answering with the new record's identifier in text
    form: the document is inserted unchanged into the named collection
    and the text of its identifier is returned. *)
Definition create_document (collection_name : string) (data : dict)
    : M string :=
  let! inserted_id := insert_one collection_name data in
  ret (str_ObjectId inserted_id).

Module SignupResponse.
Record t := mk { token : string; user_id : string }.
End SignupResponse.

Inductive SessionResponse :=
| Limited (message : string)        (* [{"limited": True, "message": ...}] *)
| SessionCreated (id : string).     (* [{"created": True, "id": ...}] *)

Inductive ReflectionResponse :=
| ReflectionCreated (id : string).  (* [{"created": True, "id": ...}] *)

(** The keyword scan of [create_session]. *)
Definition pillar_of_topic (topic_lower : string) : option string :=
  if contains topic_lower "mind" then Some "tana_mind"
  else if contains topic_lower "money" then Some "tana_money"
  else if contains topic_lower "meaning" then Some "tana_meaning"
  else None.

Definition pillar_map : gmap string string :=
  <["Mind" := "tana_mind"]> (
  <["Money" := "tana_money"]> (
  <["Meaning" := "tana_meaning"]> ∅)).

Section Endpoints.
Context `{Runtime}.

Definition signup (payload : SignupRequest.t) : M SignupResponse.t :=
  let! existing :=
    find_one "user" "email" (VStr (SignupRequest.email payload)) in
  match existing with
  | Some _ => raise (HTTPException 400 "Email already registered")
  | None =>
      let! user :=
        lift (User.new (SignupRequest.name payload)
                (SignupRequest.email payload)
                (SignupRequest.purpose payload)
                (SignupRequest.age payload)
                0 0 0 3 0) in
      let user_doc := User.model_dump user in
      let! user_id := insert_one "user" user_doc in
      let password_hash := hash_password (SignupRequest.password payload) in
      let! created_at := datetime_now in
      let! _ := insert_one "credential" (
        <["user_id" := VOid user_id]> (
        <["password_hash" := VStr password_hash]> (
        <["created_at" := VDate created_at]> ∅))) in
      let! token := generate_token in
      let! created_at := datetime_now in
      let! now := datetime_now in
      let! _ := insert_one "auth_token" (
        <["user_id" := VOid user_id]> (
        <["token" := VStr token]> (
        <["created_at" := VDate created_at]> (
        <["expires_at" := VDate (now + seven_days)]> ∅)))) in
      ret (SignupResponse.mk token (str_ObjectId user_id))
  end.

Definition create_session (payload : Session.t) (current : AuthUser.t)
    : M SessionResponse :=
  let payload :=
    Session.mk (AuthUser.id current) (Session.topic payload)
      (Session.date payload) (Session.time payload)
      (Session.feedback payload) (Session.spatial_url payload)
      (Session.status payload) in
  let! oid := to_object_id (AuthUser.id current) in
  let! user := find_one "user" "_id" (VOid oid) in
  match user with
  | None => raise (HTTPException 404 "User not found")
  | Some user =>
      let! used := lift (py_int (get (fields user) "sessions_used" (VInt 0))) in
      let! total := lift (py_int (get (fields user) "total_sessions" (VInt 3))) in
      if total <=? used then ret (Limited "Session limit reached")
      else
        let session_doc := Session.model_dump payload in
        let! inserted_id := create_document "session" session_doc in
        let topic_lower := lower (Session.topic payload) in
        let pillar_inc := pillar_of_topic topic_lower in
        let updates : dict := <["sessions_used" := VInt (used + 1)]> ∅ in
        let! updates :=
          match pillar_inc with
          | Some pillar_inc =>
              let! score :=
                lift (py_int (get (fields user) pillar_inc (VInt 0))) in
              ret (<[pillar_inc := VInt (score + 1)]> updates)
          | None => ret updates
          end in
        let! oid := to_object_id (AuthUser.id current) in
        let! _ := update_one "user" "_id" (VOid oid) updates in
        let body :=
          "User " +:+ py_str (get (fields user) "name" VNone)
          +:+ " requested a session on " +:+ Session.topic payload
          +:+ " for " +:+ Session.date payload
          +:+ " " +:+ Session.time payload in
        let! created_at := datetime_now in
        let! _ := insert_one "email_log" (
          <["to" := VStr "Jagathisraj4@gmail.com"]> (
          <["subject" := VStr "New TANA Session Request"]> (
          <["body" := VStr body]> (
          <["created_at" := VDate created_at]> ∅)))) in
        ret (SessionCreated inserted_id)
  end.

Definition add_reflection (payload : Reflection.t) (current : AuthUser.t)
    : M ReflectionResponse :=
  if negb (String.eqb (Reflection.user_id payload) (AuthUser.id current))
  then raise (HTTPException 403 "Forbidden")
  else
    let doc := Reflection.model_dump payload in
    let! now := datetime_now in
    let doc := <["created_at" := VDate now]> doc in
    let! inserted_id := create_document "reflection" doc in
    let! oid := to_object_id (AuthUser.id current) in
    let! user := find_one "user" "_id" (VOid oid) in
    let! _ :=
      match user with
      | Some user =>
          match pillar_map !! Pillar_str (Reflection.pillar payload) with
          | Some field =>
              let! oid := to_object_id (AuthUser.id current) in
              let! score :=
                lift (py_int (get (fields user) field (VInt 0))) in
              update_one "user" "_id" (VOid oid)
                (<[field := VInt (score + 1)]> ∅)
          | None => ret tt
          end
      | None => ret tt
      end in
    ret (ReflectionCreated inserted_id).
End Endpoints.

(** ** Python floats

    A [float] is an IEEE 754 binary64 number, computed with the operations
    of [SpecFloat] at precision 53 and maximal exponent 1024. *)

Module Float.
Definition prec : Z := 53.
Definition emax : Z := 1024.

(** An integer as the exact operand of a division. *)
Definition exact (z : Z) : spec_float :=
  match z with
  | Z0 => S754_zero false
  | Zpos p => S754_finite false p 0
  | Zneg p => S754_finite true p 0
  end.

(** [a / b] on integers: the quotient rounded once to the nearest float. *)
Definition truediv (a b : Z) : Result spec_float :=
  if b =? 0 then Raise ZeroDivisionError
  else match SFdiv prec emax (exact a) (exact b) with
       | S754_infinity _ => Raise OverflowError
       | q => Return q
       end.

(** [float(z)] *)
Definition of_int (z : Z) : Result spec_float :=
  match binary_normalize prec emax z 0 false with
  | S754_infinity _ => Raise OverflowError
  | x => Return x
  end.

(** [x * z] for a float [x] and an integer [z] *)
Definition mul_int (x : spec_float) (z : Z) : Result spec_float :=
  match of_int z with
  | Return y => Return (SFmul prec emax x y)
  | Raise e => Raise e
  end.

(** [m / 2^k] rounded to the nearest integer, ties to the even one. *)
Definition half_even (m : Z) (k : Z) : Z :=
  let d := 2 ^ k in
  let q := m / d in
  let r := m mod d in
  match 2 * r ?= d with
  | Lt => q
  | Gt => q + 1
  | Eq => if Z.even q then q else q + 1
  end.

(** [round(x)] *)
Definition round (x : spec_float) : Result Z :=
  match x with
  | S754_zero _ => Return 0
  | S754_finite s m e =>
      Return (cond_Zopp s
                (if 0 <=? e then Z.pos m * 2 ^ e else half_even (Z.pos m) (- e)))
  | S754_infinity _ => Raise OverflowError
  | S754_nan => Raise ValueError
  end.
End Float.

(** [round(score / total * 100)] *)
Definition percentage (score total : Z) : Result Z :=
  match Float.truediv score total with
  | Return q =>
      match Float.mul_int q 100 with
      | Return x => Float.round x
      | Raise e => Raise e
      end
  | Raise e => Raise e
  end.

Module Dashboard.
Record t := mk {
  name : value;
  purpose : value;
  mind : Z;
  money : Z;
  meaning : Z;
  percentages_mind : Z;
  percentages_money : Z;
  percentages_meaning : Z;
  sessions_used : Z;
  sessions_total : Z
}.
End Dashboard.

Section DashboardEndpoint.
Context `{Runtime}.

Definition dashboard (current : AuthUser.t) : M Dashboard.t :=
  let! oid := to_object_id (AuthUser.id current) in
  let! user := find_one "user" "_id" (VOid oid) in
  match user with
  | None => raise (HTTPException 404 "User not found")
  | Some user =>
      let! mind := lift (py_int (get (fields user) "tana_mind" (VInt 0))) in
      let! money := lift (py_int (get (fields user) "tana_money" (VInt 0))) in
      let! meaning :=
        lift (py_int (get (fields user) "tana_meaning" (VInt 0))) in
      let total := Z.max (mind + money + meaning) 1 in
      let name := get (fields user) "name" (VStr "") in
      let purpose := get (fields user) "purpose" (VStr "Healing") in
      let! percentages_mind := lift (percentage mind total) in
      let! percentages_money := lift (percentage money total) in
      let! percentages_meaning := lift (percentage meaning total) in
      let! used := lift (py_int (get (fields user) "sessions_used" (VInt 0))) in
      let! sessions_total :=
        lift (py_int (get (fields user) "total_sessions" (VInt 3))) in
      ret (Dashboard.mk name purpose mind money meaning
             percentages_mind percentages_money percentages_meaning
             used sessions_total)
  end.
End DashboardEndpoint.


(** ** The remaining endpoints of main.py *)

Module LoginRequest.
Record t := mk { email : string; password : string }.
End LoginRequest.

Module LoginResponse.
Record t := mk { token : string; user_id : string }.
End LoginResponse.

Module ProfileUpdate.
Record t := mk {
  name : option string;
  purpose : option Purpose;
  age : option Z
}.

Definition model_dump (p : t) : dict :=
  <["name" := optional_str (name p)]> (
  <["purpose" := optional_str (Purpose_str <$> purpose p)]> (
  <["age" := optional_int (age p)]> ∅)).
End ProfileUpdate.


Section MoreEndpoints.
Context `{Runtime}.

Definition login (payload : LoginRequest.t) : M LoginResponse.t :=
  let! user := find_one "user" "email" (VStr (LoginRequest.email payload)) in
  match user with
  | None => raise (HTTPException 400 "Invalid email or password")
  | Some user =>
      let! cred := find_one "credential" "user_id" (VOid (_id user)) in
      match cred with
      | None => raise (HTTPException 400 "Invalid email or password")
      | Some cred =>
          if negb (bool_decide
                     (get (fields cred) "password_hash" VNone
                      = VStr (hash_password (LoginRequest.password payload))))
          then raise (HTTPException 400 "Invalid email or password")
          else
            let! token := generate_token in
            let! created_at := datetime_now in
            let! now := datetime_now in
            let! _ := insert_one "auth_token" (
              <["user_id" := VOid (_id user)]> (
              <["token" := VStr token]> (
              <["created_at" := VDate created_at]> (
              <["expires_at" := VDate (now + seven_days)]> ∅)))) in
            ret (LoginResponse.mk token (str_ObjectId (_id user)))
      end
  end.

(** [me]: the record with its [_id] replaced by the text field [id]. *)
Definition me (current : AuthUser.t) : M dict :=
  let! oid := to_object_id (AuthUser.id current) in
  let! user := find_one "user" "_id" (VOid oid) in
  match user with
  | None => raise (HTTPException 404 "User not found")
  | Some user => ret (<["id" := VStr (str_ObjectId (_id user))]> (fields user))
  end.

(** [update_profile]: the answer is [{"updated": b}]. *)
Definition update_profile (payload : ProfileUpdate.t) (current : AuthUser.t)
    : M bool :=
  let update : dict :=
    filter (fun kv : string * value => kv.2 <> VNone)
      (ProfileUpdate.model_dump payload) in
  if bool_decide (update = ∅) then ret false
  else
    let! oid := to_object_id (AuthUser.id current) in
    let! _ := update_one "user" "_id" (VOid oid) update in
    ret true.
End MoreEndpoints.

(** ** Observations used in the statements *)

(** The record [find_one] returns for a bearer token. *)
Definition token_record (w : World) (token : string) : option Document :=
  List.find (matches "token" (VStr token)) (collection w "auth_token").

(** The user record [find_one] returns for an [_id] filter. *)
Definition user_record (w : World) (uid : value) : option Document :=
  List.find (matches "_id" uid) (collection w "user").

(** The outcome is a 401 response. *)
Definition unauthenticated {A} (r : Result A) : Prop :=
  exists detail, r = Raise (HTTPException 401 detail).

(** A token record as [signup] and [login] write it, up to a missing or
    null expiry: it names a user, and its expiry, if any, is a datetime. *)
Definition token_record_ok (d : Document) : Prop :=
  is_Some (fields d !! "user_id")
  /\ (fields d !! "expires_at" = None
      \/ fields d !! "expires_at" = Some VNone
      \/ exists t, fields d !! "expires_at" = Some (VDate t)).

(** A user record whose [name] and [email], when present, are text. *)
Definition user_record_ok (d : Document) : Prop :=
  (exists s, get (fields d) "name" (VStr "") = VStr s)
  /\ (exists s, get (fields d) "email" (VStr "") = VStr s).

(** The three grounds of rejection, with a strict comparison of the expiry. *)
Definition rejected (w : World) (token : string) : Prop :=
  token_record w token = None
  \/ (exists d t, token_record w token = Some d
                 /\ fields d !! "expires_at" = Some (VDate t)
                 /\ t < clock w 0%nat)
  \/ (exists d uid, token_record w token = Some d
                   /\ fields d !! "user_id" = Some uid
                   /\ user_record w uid = None).

(** The header carries [token] after a [Bearer] scheme. *)
Definition bearer (authorization token : string) : Prop :=
  truthy (VStr authorization) = true
  /\ startswith (lower authorization) "bearer " = true
  /\ split authorization " " !! 1%nat = Some token.

(** The score field a reflection's pillar stands for. *)
Definition pillar_field (p : Pillar) : string :=
  match p with
  | Mind => "tana_mind"
  | Money => "tana_money"
  | Meaning => "tana_meaning"
  end.

(** A counter of a user record, read as the endpoints read it. *)
Definition counter `{Runtime} (u : Document) (field : string) (default : Z)
    : Result Z :=
  py_int (get (fields u) field (VInt default)).

(** The text has no space in it. *)
Fixpoint nospace (s : string) : bool :=
  match s with
  | EmptyString => true
  | String c s' => negb (Ascii.eqb c " ") && nospace s'
  end.

(** An identifier whose text reads back as itself, as every identifier
    built from 24 hexadecimal digits does. *)
Definition canonical (o : ObjectId) : Prop :=
  ObjectId_of_str (str_ObjectId o) = Some o.

(** The user record [find_one] returns for an email. *)
Definition user_by_email (w : World) (email : string) : option Document :=
  List.find (matches "email" (VStr email)) (collection w "user").

(** The credential record [find_one] returns for a user. *)
Definition credential_of (w : World) (uid : ObjectId) : option Document :=
  List.find (matches "user_id" (VOid uid)) (collection w "credential").

(** A record's fields with the given fields of a profile update laid over
    them. *)
Definition with_field (key : string) (o : option value) (m : dict) : dict :=
  match o with
  | Some v => <[key := v]> m
  | None => m
  end.

Definition apply_profile (p : ProfileUpdate.t) (m : dict) : dict :=
  with_field "name" (VStr <$> ProfileUpdate.name p) (
  with_field "purpose" (VStr <$> (Purpose_str <$> ProfileUpdate.purpose p)) (
  with_field "age" (VInt <$> ProfileUpdate.age p) m)).

(** Requests handled one after the other, each in the world the previous
    one left; the first exception ends the run. *)
Fixpoint for_each {A B} (handle : A -> M B) (requests : list A)
    : M (list B) :=
  match requests with
  | [] => ret []
  | r :: requests' =>
      let! answer := handle r in
      let! answers := for_each handle requests' in
      ret (answer :: answers)
  end.

Definition is_created (r : SessionResponse) : bool :=
  match r with
  | SessionCreated _ => true
  | Limited _ => false
  end.

(** A user record whose session counts and three scores are integers. *)
Definition counters `{Runtime} (u : Document) (used total : Z) : Prop :=
  counter u "sessions_used" 0 = Return used
  /\ counter u "total_sessions" 3 = Return total
  /\ (exists mind, counter u "tana_mind" 0 = Return mind)
  /\ (exists money, counter u "tana_money" 0 = Return money)
  /\ (exists meaning, counter u "tana_meaning" 0 = Return meaning).

(** ** Sample data for the closed instances *)

Module Sample.
Definition asha_id : ObjectId := mkObjectId "65f1c0de00000000000000a1".

(** A user with scores 1, 1, 2 who has used one of three sessions. *)
Definition asha : Document :=
  mkDocument asha_id
    (User.model_dump
       (User.mk "Asha" "asha@example.com" Growth (Some 31) 1 1 2 3 1)).

Definition token : string := "9f86d081884c7d659a2feaa0c55ad015".

Definition token_doc (expires_at : value) : Document :=
  mkDocument (mkObjectId "65f1c0de00000000000000b1") (
    <["user_id" := VOid asha_id]> (
    <["token" := VStr token]> (
    <["created_at" := VDate 1000]> (
    <["expires_at" := expires_at]> ∅)))).

Definition ids (n : nat) : ObjectId :=
  nth n [mkObjectId "65f1c0de00000000000000c0";
         mkObjectId "65f1c0de00000000000000c1";
         mkObjectId "65f1c0de00000000000000c2"]
    (mkObjectId "65f1c0de00000000000000cf").

(** A store with one user and one token, read at time [now]. *)
Definition world (expires_at : value) (now : Z) : World :=
  mkWorld (<["user" := [asha]]> (
           <["auth_token" := [token_doc expires_at]]> ∅))
          (fun _ => now) ids (fun _ => "3c6e0b8a9c15224a8228b9a98ca1531d").

Definition header : string := "Bearer 9f86d081884c7d659a2feaa0c55ad015".

Definition current : AuthUser.t :=
  AuthUser.mk "65f1c0de00000000000000a1" "Asha" "asha@example.com".

(** Stand-ins for the uninterpreted library functions. *)
Definition runtime : Runtime :=
  {| int_of_text := fun _ => None;
     str_of_datetime := fun _ => "1970-01-01 00:00:00+00:00";
     sha256_hexdigest := fun s => "sha256:" +:+ s;
     getenv := fun _ => None |}.
End Sample.

(** * Theorems *)

(** ** Running a computation step by step *)

Lemma get_None (d : dict) key default :
  d !! key = None -> get d key default = default.
Proof. unfold get. now intros ->. Qed.

Lemma get_Some (d : dict) key default v :
  d !! key = Some v -> get d key default = v.
Proof. unfold get. now intros ->. Qed.

Lemma getitem_Some (d : dict) key v :
  d !! key = Some v -> getitem d key = Return v.
Proof. unfold getitem. now intros ->. Qed.

Lemma bson_empty : bson ∅ = ∅.
Proof. apply fmap_empty. Qed.

Lemma bson_insert (d : dict) key v :
  bson (<[key := v]> d) = <[key := bson_value v]> (bson d).
Proof. apply fmap_insert. Qed.

Lemma bson_lookup (d : dict) key : bson d !! key = bson_value <$> d !! key.
Proof. apply lookup_fmap. Qed.

Lemma bson_id (d : dict) :
  (forall key x, d !! key = Some x -> bson_value x = x) -> bson d = d.
Proof.
  intros Hd. apply map_eq. intros key. rewrite bson_lookup.
  destruct (d !! key) as [x|] eqn:E; [|reflexivity].
  cbn. now rewrite (Hd key x E).
Qed.

Lemma bson_value_optional_str o : bson_value (optional_str o) = optional_str o.
Proof. now destruct o. Qed.

Lemma bson_value_optional_int o : bson_value (optional_int o) = optional_int o.
Proof. now destruct o. Qed.

Lemma bson_User u : bson (User.model_dump u) = User.model_dump u.
Proof.
  unfold User.model_dump. rewrite !bson_insert, bson_empty.
  now rewrite bson_value_optional_int.
Qed.

Lemma bson_Session s : bson (Session.model_dump s) = Session.model_dump s.
Proof.
  unfold Session.model_dump. rewrite !bson_insert, bson_empty.
  now rewrite !bson_value_optional_str.
Qed.

(** A document whose other fields hold no datetime, stored with a datetime
    laid over one field. *)
Lemma bson_insert_over (d : dict) key v :
  (forall key' x, key' <> key -> d !! key' = Some x -> bson_value x = x) ->
  bson (<[key := v]> d) = <[key := bson_value v]> d.
Proof.
  intros Hd. apply map_eq. intros key'. rewrite bson_lookup.
  destruct (decide (key' = key)) as [->|Hne].
  - now rewrite !lookup_insert_eq.
  - rewrite !lookup_insert_ne by congruence.
    destruct (d !! key') as [x|] eqn:E; [|reflexivity].
    cbn. now rewrite (Hd key' x Hne E).
Qed.

Lemma bson_Reflection r now :
  bson (<["created_at" := VDate now]> (Reflection.model_dump r))
  = <["created_at" := VDate (milliseconds now)]> (Reflection.model_dump r).
Proof.
  apply (bson_insert_over _ "created_at" (VDate now)).
  intros key x Hne. unfold Reflection.model_dump.
  repeat (rewrite lookup_insert_Some; intros [[<- <-]|[_ Hx]];
          [first [reflexivity|apply bson_value_optional_str|congruence]
          |revert Hx]).
  now rewrite lookup_empty.
Qed.

(** Bring the documents handed to the store into the form it keeps. *)
Ltac store :=
  rewrite ?bson_User, ?bson_Session, ?bson_Reflection, ?bson_insert,
    ?bson_empty, ?bson_value_optional_str, ?bson_value_optional_int;
  cbn [bson_value].

Ltac store_in E :=
  rewrite ?bson_User, ?bson_Session, ?bson_Reflection, ?bson_insert,
    ?bson_empty, ?bson_value_optional_str, ?bson_value_optional_int in E;
  cbn [bson_value] in E.

Lemma bson_value_idem v : bson_value (bson_value v) = bson_value v.
Proof.
  destruct v as [| | | |t]; try reflexivity. cbn. unfold milliseconds.
  now rewrite Z.div_mul by lia.
Qed.


Lemma bind_ret {A B} (a : A) (k : A -> M B) w : bind (ret a) k w = k a w.
Proof. reflexivity. Qed.

Lemma bind_raise {A B} e (k : A -> M B) w :
  bind (raise e) k w = (Raise e, w).
Proof. reflexivity. Qed.

Lemma bind_lift_Return {A B} (a : A) (k : A -> M B) w :
  bind (lift (Return a)) k w = k a w.
Proof. reflexivity. Qed.

Lemma bind_lift_Raise {A B} e (k : A -> M B) w :
  bind (lift (Raise e)) k w = (Raise e, w).
Proof. reflexivity. Qed.

Lemma bind_bind {A B C} (m : M A) (f : A -> M B) (g : B -> M C) w :
  bind (bind m f) g w = bind m (fun a => bind (f a) g) w.
Proof. unfold bind. destruct (m w) as [[a|e] w']; reflexivity. Qed.

Lemma bind_find_one {B} name key v (k : option Document -> M B) w :
  bind (find_one name key v) k w
  = k (List.find (matches key v) (collection w name)) w.
Proof. reflexivity. Qed.

Lemma bind_datetime_now {B} (k : Z -> M B) w :
  bind datetime_now k w
  = k (clock w 0%nat)
      (mkWorld (db w) (fun n => clock w (S n)) (object_ids w) (uuids w)).
Proof. reflexivity. Qed.

Lemma bind_generate_token {B} (k : string -> M B) w :
  bind generate_token k w
  = k (uuids w 0%nat)
      (mkWorld (db w) (clock w) (object_ids w) (fun n => uuids w (S n))).
Proof. reflexivity. Qed.

Lemma bind_insert_one {B} name doc (k : ObjectId -> M B) w :
  bind (insert_one name doc) k w
  = k (object_ids w 0%nat)
      (mkWorld (<[name := (collection w name
                           ++ [mkDocument (object_ids w 0%nat) (bson doc)])%list]>
                  (db w))
               (clock w) (fun n => object_ids w (S n)) (uuids w)).
Proof. reflexivity. Qed.

Lemma bind_update_one {B} name key v set (k : unit -> M B) w :
  bind (update_one name key v set) k w
  = k tt (mkWorld (alter (update_first key v (bson set)) name (db w))
                  (clock w) (object_ids w) (uuids w)).
Proof. reflexivity. Qed.

Lemma bind_create_document {B} name doc (k : string -> M B) w :
  bind (create_document name doc) k w
  = k (str_ObjectId (object_ids w 0%nat))
      (mkWorld (<[name := (collection w name
                           ++ [mkDocument (object_ids w 0%nat) (bson doc)])%list]>
                  (db w))
               (clock w) (fun n => object_ids w (S n)) (uuids w)).
Proof. reflexivity. Qed.

Create Rewrite HintDb run.

#[local] Hint Rewrite @bind_ret @bind_raise @bind_lift_Return @bind_lift_Raise
  @bind_find_one @bind_datetime_now @bind_generate_token @bind_insert_one
  @bind_update_one @bind_create_document : run.


Ltac run := autorewrite with run.

(** Once a computation has run to its end: expose the result and the world. *)
Ltac settle :=
  unfold ret, raise, lift; cbn [fst snd db clock object_ids uuids].

(** ** Token resolution *)

Lemma rejected_no_record w token :
  token_record w token = None -> rejected w token.
Proof. intros E. left. exact E. Qed.

Lemma get_current_user_after_expiry_check w w' token d uid :
  token_record w token = Some d ->
  fields d !! "user_id" = Some uid ->
  db w' = db w ->
  (forall u, user_record w uid = Some u -> user_record_ok u) ->
  let r :=
    (let! user_id := lift (getitem (fields d) "user_id") in
     let! user := find_one "user" "_id" user_id in
     match user with
     | None => raise (HTTPException 401 "User not found")
     | Some user =>
         lift (AuthUser.new (str_ObjectId (_id user))
                 (get (fields user) "name" (VStr ""))
                 (get (fields user) "email" (VStr "")))
     end) w' in
  match user_record w uid with
  | None => r.1 = Raise (HTTPException 401 "User not found")
  | Some u =>
      exists name email,
        get (fields u) "name" (VStr "") = VStr name
        /\ get (fields u) "email" (VStr "") = VStr email
        /\ r.1 = Return (AuthUser.mk (str_ObjectId (_id u)) name email)
  end.
Proof.
  intros Hd Huid Hdb Hok. cbn zeta.
  unfold bind, lift, getitem, find_one. rewrite Huid.
  assert (Hc : collection w' "user" = collection w "user")
    by (unfold collection; now rewrite Hdb).
  rewrite Hc. fold (user_record w uid).
  destruct (user_record w uid) as [u|] eqn:Eu; [|reflexivity].
  destruct (Hok u eq_refl) as [[name Hn] [email He]].
  exists name, email. rewrite Hn, He. repeat split.
Qed.

(** What the resolution of a well-formed bearer header returns, by cases on
    the token record, its expiry and the user it names. *)
Lemma get_current_user_cases w authorization token :
  bearer authorization token ->
  (forall d, token_record w token = Some d -> token_record_ok d) ->
  (forall uid u, user_record w uid = Some u -> user_record_ok u) ->
  let r := (get_current_user (Some authorization) w).1 in
  match token_record w token with
  | None => r = Raise (HTTPException 401 "Invalid token")
  | Some d =>
      exists uid, fields d !! "user_id" = Some uid /\
      ((exists t, fields d !! "expires_at" = Some (VDate t) /\ t < clock w 0%nat
                  /\ r = Raise (HTTPException 401 "Token expired"))
       \/ ((forall t, fields d !! "expires_at" = Some (VDate t) ->
                      clock w 0%nat <= t)
           /\ match user_record w uid with
              | None => r = Raise (HTTPException 401 "User not found")
              | Some u =>
                  exists name email,
                    get (fields u) "name" (VStr "") = VStr name
                    /\ get (fields u) "email" (VStr "") = VStr email
                    /\ r = Return (AuthUser.mk (str_ObjectId (_id u)) name email)
              end))
  end.
Proof.
  intros (Ht & Hs & Hsp) Htok Husr. cbn zeta.
  unfold get_current_user. rewrite Ht, Hs. cbn [negb orb].
  unfold index. rewrite Hsp. run. fold (token_record w token).
  destruct (token_record w token) as [d|] eqn:Ed; [|reflexivity].
  destruct (Htok d eq_refl) as [[uid Huid] Hexp].
  exists uid. split; [exact Huid|].
  pose proof (fun w' Hdb => get_current_user_after_expiry_check
                              w w' token d uid Ed Huid Hdb (Husr uid)) as Tail.
  cbn zeta in Tail.
  destruct Hexp as [Hn | [Hn | [t Hn]]].
  - right. split; [intros t Ht'; congruence|].
    rewrite (get_None _ _ _ Hn). cbn [truthy]. run.
    apply (Tail w eq_refl).
  - right. split; [intros t Ht'; congruence|].
    rewrite (get_Some _ _ _ _ Hn). cbn [truthy]. run.
    apply (Tail w eq_refl).
  - rewrite (get_Some _ _ _ _ Hn). cbn [truthy].
    rewrite bind_bind, (getitem_Some _ _ _ Hn). run.
    rewrite bind_bind. run. unfold lt_datetime.
    destruct (t <? clock w 0%nat) eqn:Elt; run.
    + left. exists t. apply Z.ltb_lt in Elt. repeat split; assumption.
    + right. apply Z.ltb_ge in Elt. split.
      * intros t' Ht'. rewrite Hn in Ht'. injection Ht' as <-. exact Elt.
      * apply Tail. reflexivity.
Qed.

(** C1 (amended). On a protected endpoint, the resolution of a bearer token
    answers 401 exactly when the token record does not exist, or its expiry
    is a datetime strictly earlier than the current time, or the user the
    record names no longer exists; in every other case it succeeds with the
    projection [{id, name, email}] of that user. *)
Theorem get_current_user_rejects_exactly w authorization token :
  bearer authorization token ->
  (forall d, token_record w token = Some d -> token_record_ok d) ->
  (forall uid u, user_record w uid = Some u -> user_record_ok u) ->
  let r := (get_current_user (Some authorization) w).1 in
  (unauthenticated r <-> rejected w token)
  /\ (~ rejected w token ->
      exists d uid u name email,
        token_record w token = Some d
        /\ fields d !! "user_id" = Some uid
        /\ user_record w uid = Some u
        /\ get (fields u) "name" (VStr "") = VStr name
        /\ get (fields u) "email" (VStr "") = VStr email
        /\ r = Return (AuthUser.mk (str_ObjectId (_id u)) name email)).
Proof.
  intros Hb Htok Husr r.
  pose proof (get_current_user_cases w authorization token Hb Htok Husr) as C.
  cbn zeta in C. fold r in C. unfold rejected, unauthenticated.
  destruct (token_record w token) as [d|] eqn:Ed.
  - destruct C as (uid & Huid & [(t & Hexp & Hlt & Hr) | [Hge C]]).
    + split.
      * split; [intros _|intros _; eauto].
        right; left. exists d, t. auto.
      * intros N. exfalso. apply N. right; left. exists d, t. auto.
    + destruct (user_record w uid) as [u|] eqn:Eu.
      * destruct C as (name & email & Hn & He & Hr).
        assert (N : ~ (Some d = None
                       \/ (exists d0 t, Some d = Some d0
                             /\ fields d0 !! "expires_at" = Some (VDate t)
                             /\ t < clock w 0%nat)
                       \/ (exists d0 uid0, Some d = Some d0
                             /\ fields d0 !! "user_id" = Some uid0
                             /\ user_record w uid0 = None))).
        { intros [E | [(d0 & t & E & Hexp & Hlt) | (d0 & uid0 & E & Hu & Hnone)]].
          - discriminate.
          - injection E as <-. specialize (Hge t Hexp). lia.
          - injection E as <-. rewrite Huid in Hu. injection Hu as <-.
            congruence. }
        split.
        -- split; [|intros R; destruct (N R)].
           intros [detail Hd]. rewrite Hr in Hd. discriminate.
        -- intros _. exists d, uid, u, name, email. auto 10.
      * split.
        -- split; [intros _|intros _; eauto].
           right; right. exists d, uid. auto.
        -- intros N. exfalso. apply N. right; right. exists d, uid. auto.
  - split.
    + split; [intros _; now left|intros _; eauto].
    + intros N. exfalso. apply N. now left.
Qed.

(** C1, as stated, fails: a token whose expiry equals the current time is
    not later than it, yet the resolution succeeds. *)
Lemma get_current_user_accepts_at_expiry :
  let w := Sample.world (VDate 5000) 5000 in
  (exists d t, token_record w Sample.token = Some d
               /\ fields d !! "expires_at" = Some (VDate t)
               /\ t <= clock w 0%nat)
  /\ (get_current_user (Some Sample.header) w).1 = Return Sample.current.
Proof.
  split.
  - exists (Sample.token_doc (VDate 5000)), 5000.
    repeat split; first [vm_compute; reflexivity | vm_compute; discriminate].
  - vm_compute. reflexivity.
Qed.

(** C9. A token record whose [expires_at] is absent or null is never
    rejected as expired: the clock is not even read, and the token resolves
    to its user whenever that user exists, whatever the time. *)
Theorem token_without_expiry_never_expires w authorization token d :
  bearer authorization token ->
  token_record w token = Some d ->
  fields d !! "expires_at" = None \/ fields d !! "expires_at" = Some VNone ->
  let out := get_current_user (Some authorization) w in
  out.1 <> Raise (HTTPException 401 "Token expired")
  /\ out.2 = w
  /\ (forall uid u,
        fields d !! "user_id" = Some uid ->
        user_record w uid = Some u ->
        user_record_ok u ->
        exists name email,
          get (fields u) "name" (VStr "") = VStr name
          /\ get (fields u) "email" (VStr "") = VStr email
          /\ out.1 = Return (AuthUser.mk (str_ObjectId (_id u)) name email)).
Proof.
  intros (Ht & Hs & Hsp) Ed Hexp. cbn zeta.
  unfold get_current_user. rewrite Ht, Hs. cbn [negb orb].
  unfold index. rewrite Hsp. run. fold (token_record w token). rewrite Ed.
  assert (Hfalse : truthy (get (fields d) "expires_at" VNone) = false).
  { destruct Hexp as [Hn|Hn];
      [rewrite (get_None _ _ _ Hn)|rewrite (get_Some _ _ _ _ Hn)]; reflexivity. }
  rewrite Hfalse. run.
  split; [|split].
  - unfold getitem. destruct (fields d !! "user_id") as [uid|]; run;
      [|discriminate].
    destruct (List.find _ _) as [u|]; [|discriminate].
    unfold lift, AuthUser.new.
    destruct (get (fields u) "name" (VStr "")),
      (get (fields u) "email" (VStr "")); discriminate.
  - unfold getitem. destruct (fields d !! "user_id") as [uid|]; run;
      [|reflexivity].
    destruct (List.find _ _) as [u|]; reflexivity.
  - intros uid u Huid Eu Hok.
    pose proof (get_current_user_after_expiry_check w w token d uid Ed Huid
                  eq_refl) as Tail.
    cbn zeta in Tail. rewrite Eu in Tail. apply Tail.
    intros u' E. now injection E as <-.
Qed.

Lemma sample_token_record_ok expires_at now d :
  token_record (Sample.world expires_at now) Sample.token = Some d ->
  d = Sample.token_doc expires_at.
Proof.
  unfold token_record.
  change (collection (Sample.world expires_at now) "auth_token")
    with [Sample.token_doc expires_at].
  cbn [List.find].
  change (matches "token" (VStr Sample.token) (Sample.token_doc expires_at))
    with true.
  intros E. now injection E as <-.
Defined.

Lemma sample_user_record_ok expires_at now uid u :
  user_record (Sample.world expires_at now) uid = Some u -> user_record_ok u.
Proof.
  unfold user_record.
  change (collection (Sample.world expires_at now) "user") with [Sample.asha].
  cbn [List.find]. destruct (matches "_id" uid Sample.asha); [|discriminate].
  intros E. injection E as <-.
  split; [exists "Asha"|exists "asha@example.com"]; reflexivity.
Defined.

Lemma get_current_user_rejects_exactly_witness :
  let w := Sample.world (VDate 9000) 5000 in
  bearer Sample.header Sample.token
  /\ (forall d, token_record w Sample.token = Some d -> token_record_ok d)
  /\ (forall uid u, user_record w uid = Some u -> user_record_ok u)
  /\ (let r := (get_current_user (Some Sample.header) w).1 in
      (unauthenticated r <-> rejected w Sample.token)
      /\ (~ rejected w Sample.token ->
          exists d uid u name email,
            token_record w Sample.token = Some d
            /\ fields d !! "user_id" = Some uid
            /\ user_record w uid = Some u
            /\ get (fields u) "name" (VStr "") = VStr name
            /\ get (fields u) "email" (VStr "") = VStr email
            /\ r = Return (AuthUser.mk (str_ObjectId (_id u)) name email))).
Proof.
  intros w.
  assert (H1 : bearer Sample.header Sample.token)
    by (repeat split; reflexivity).
  assert (H2 : forall d, token_record w Sample.token = Some d ->
                         token_record_ok d).
  { intros d E. apply sample_token_record_ok in E. subst d.
    split; [exists (VOid Sample.asha_id); reflexivity|].
    right; right. exists 9000. reflexivity. }
  assert (H3 : forall uid u, user_record w uid = Some u -> user_record_ok u)
    by apply sample_user_record_ok.
  repeat (split; [assumption|]).
  exact (get_current_user_rejects_exactly w Sample.header Sample.token H1 H2 H3).
Defined.

Lemma token_without_expiry_never_expires_witness :
  let w := Sample.world VNone 7000000000000000 in
  let d := Sample.token_doc VNone in
  bearer Sample.header Sample.token
  /\ token_record w Sample.token = Some d
  /\ (fields d !! "expires_at" = None \/ fields d !! "expires_at" = Some VNone)
  /\ (let out := get_current_user (Some Sample.header) w in
      out.1 <> Raise (HTTPException 401 "Token expired")
      /\ out.2 = w
      /\ (forall uid u,
            fields d !! "user_id" = Some uid ->
            user_record w uid = Some u ->
            user_record_ok u ->
            exists name email,
              get (fields u) "name" (VStr "") = VStr name
              /\ get (fields u) "email" (VStr "") = VStr email
              /\ out.1
                 = Return (AuthUser.mk (str_ObjectId (_id u)) name email))).
Proof.
  intros w d.
  assert (H1 : bearer Sample.header Sample.token)
    by (repeat split; reflexivity).
  assert (H2 : token_record w Sample.token = Some d) by reflexivity.
  assert (H3 : fields d !! "expires_at" = None
               \/ fields d !! "expires_at" = Some VNone)
    by (right; reflexivity).
  repeat (split; [assumption|]).
  exact (token_without_expiry_never_expires w Sample.header Sample.token d
           H1 H2 H3).
Defined.

(** ** The store *)

Lemma find_matches_Some key v (docs : list Document) u :
  String.eqb key "_id" = false ->
  In u docs -> fields u !! key = Some v ->
  exists u', List.find (matches key v) docs = Some u'.
Proof.
  intros Hk Hin Hf.
  destruct (List.find (matches key v) docs) as [u'|] eqn:E; [eauto|].
  exfalso. apply (find_none _ _ E) in Hin.
  unfold matches in Hin. rewrite Hk, Hf in Hin.
  now rewrite bool_decide_eq_true_2 in Hin.
Qed.

Lemma find_matches_None key v (docs : list Document) :
  String.eqb key "_id" = false ->
  v <> VNone ->
  (forall u, In u docs -> fields u !! key <> Some v) ->
  List.find (matches key v) docs = None.
Proof.
  intros Hk Hv Hno.
  destruct (List.find (matches key v) docs) as [u|] eqn:E; [|reflexivity].
  exfalso. apply find_some in E as [Hin Hm].
  unfold matches in Hm. rewrite Hk in Hm.
  destruct (fields u !! key) as [x|] eqn:Ex.
  - apply bool_decide_eq_true_1 in Hm. subst x. now apply (Hno u).
  - apply bool_decide_eq_true_1 in Hm. contradiction.
Qed.

Lemma collection_insert w' name docs (d : gmap string (list Document)) :
  db w' = <[name := docs]> d -> collection w' name = docs.
Proof. unfold collection. intros ->. now rewrite lookup_insert_eq. Qed.

Lemma collection_insert_ne w' name name' docs
    (d : gmap string (list Document)) :
  db w' = <[name := docs]> d -> name <> name' ->
  collection w' name' = match d !! name' with Some l => l | None => [] end.
Proof. unfold collection. intros -> Hne. now rewrite lookup_insert_ne. Qed.

(** ** Signup *)

(** C6. A signup whose email is exactly the email of a stored user fails
    with the 400 "Email already registered" response (the spec's Conflict)
    and leaves the whole store as it was: no User, Credential or AuthToken
    record is created. *)
Theorem signup_existing_email_conflict `{Runtime} w payload u :
  In u (collection w "user") ->
  fields u !! "email" = Some (VStr (SignupRequest.email payload)) ->
  signup payload w
  = (Raise (HTTPException 400 "Email already registered"), w).
Proof.
  intros Hin Hmail. unfold signup. run.
  destruct (find_matches_Some "email" _ _ u eq_refl Hin Hmail) as [u' ->].
  reflexivity.
Qed.

Lemma signup_existing_email_conflict_witness :
  let w := Sample.world VNone 0 in
  let payload :=
    SignupRequest.mk "Asha B" "asha@example.com" "pw" Healing None in
  In Sample.asha (collection w "user")
  /\ fields Sample.asha !! "email" = Some (VStr (SignupRequest.email payload))
  /\ @signup Sample.runtime payload w
     = (Raise (HTTPException 400 "Email already registered"), w).
Proof.
  intros w payload.
  assert (H1 : In Sample.asha (collection w "user")) by (left; reflexivity).
  assert (H2 : fields Sample.asha !! "email"
               = Some (VStr (SignupRequest.email payload))) by reflexivity.
  repeat (split; [assumption|]).
  exact (@signup_existing_email_conflict Sample.runtime w payload Sample.asha
           H1 H2).
Defined.

Lemma User_valid_signup name email purpose age :
  (forall a, age = Some a -> 0 <= a <= 120) ->
  User.valid (User.mk name email purpose age 0 0 0 3 0) = true.
Proof.
  intros Hage. unfold User.valid. cbn.
  destruct age as [a|]; [|reflexivity].
  destruct (Hage a eq_refl) as [H0 H120].
  apply Z.leb_le in H0, H120. now rewrite H0, H120.
Qed.

(** C5 (amended). A signup whose email is not stored yet and whose age, when
    given, lies within 0..120 creates a user with the three scores at 0,
    [sessions_used] 0 and [total_sessions] 3, together with a credential
    and a token record, and answers with that token and the new user's id. *)
Theorem signup_creates_user `{Runtime} w payload :
  (forall u, In u (collection w "user") ->
             fields u !! "email" <> Some (VStr (SignupRequest.email payload))) ->
  (forall a, SignupRequest.age payload = Some a -> 0 <= a <= 120) ->
  let out := signup payload w in
  let user_id := object_ids w 0%nat in
  let token := uuids w 0%nat in
  let user :=
    User.model_dump
      (User.mk (SignupRequest.name payload) (SignupRequest.email payload)
         (SignupRequest.purpose payload) (SignupRequest.age payload)
         0 0 0 3 0) in
  out.1 = Return (SignupResponse.mk token (str_ObjectId user_id))
  /\ collection out.2 "user"
     = (collection w "user" ++ [mkDocument user_id user])%list
  /\ (user !! "tana_mind" = Some (VInt 0)
      /\ user !! "tana_money" = Some (VInt 0)
      /\ user !! "tana_meaning" = Some (VInt 0)
      /\ user !! "sessions_used" = Some (VInt 0)
      /\ user !! "total_sessions" = Some (VInt 3))
  /\ collection out.2 "credential"
     = (collection w "credential"
        ++ [mkDocument (object_ids w 1%nat) (
              <["user_id" := VOid user_id]> (
              <["password_hash" :=
                  VStr (hash_password (SignupRequest.password payload))]> (
              <["created_at" := VDate (milliseconds (clock w 0%nat))]> ∅)))])%list
  /\ collection out.2 "auth_token"
     = (collection w "auth_token"
        ++ [mkDocument (object_ids w 2%nat) (
              <["user_id" := VOid user_id]> (
              <["token" := VStr token]> (
              <["created_at" := VDate (milliseconds (clock w 1%nat))]> (
              <["expires_at" :=
                  VDate (milliseconds (clock w 2%nat + seven_days))]>
                ∅))))])%list.
Proof.
  intros Hnew Hage. cbn zeta.
  destruct (signup payload w) as [r W] eqn:E. cbn [fst snd].
  unfold signup in E. rewrite bind_find_one in E.
  rewrite (find_matches_None "email" _ _ eq_refl) in E
    by (discriminate || exact Hnew).
  unfold User.new in E. rewrite (User_valid_signup _ _ _ _ Hage) in E.
  rewrite bind_lift_Return in E.
  repeat (first [rewrite bind_insert_one in E
                |rewrite bind_datetime_now in E
                |rewrite bind_generate_token in E];
          cbn [db clock object_ids uuids] in E).
  store_in E.
  unfold ret in E. injection E as <- <-.
  unfold collection. cbn [db].
  split; [reflexivity|].
  split.
  { rewrite lookup_insert_ne by discriminate.
    rewrite lookup_insert_ne by discriminate.
    now rewrite lookup_insert_eq. }
  split; [repeat split; reflexivity|].
  split.
  { rewrite lookup_insert_ne by discriminate.
    rewrite lookup_insert_eq.
    now rewrite lookup_insert_ne by discriminate. }
  rewrite lookup_insert_eq.
  rewrite lookup_insert_ne by discriminate.
  now rewrite lookup_insert_ne by discriminate.
Qed.

Lemma signup_creates_user_witness :
  let w := Sample.world VNone 0 in
  let payload :=
    SignupRequest.mk "Ravi" "ravi@example.com" "pw" Direction (Some 30) in
  (forall u, In u (collection w "user") ->
             fields u !! "email" <> Some (VStr (SignupRequest.email payload)))
  /\ (forall a, SignupRequest.age payload = Some a -> 0 <= a <= 120)
  /\ (@signup Sample.runtime payload w).1
     = Return (SignupResponse.mk "3c6e0b8a9c15224a8228b9a98ca1531d"
                 "65f1c0de00000000000000c0").
Proof.
  intros w payload.
  assert (H1 : forall u, In u (collection w "user") ->
                 fields u !! "email"
                 <> Some (VStr (SignupRequest.email payload))).
  { intros u [<-|[]]. discriminate. }
  assert (H2 : forall a, SignupRequest.age payload = Some a -> 0 <= a <= 120).
  { intros a E. injection E as <-. lia. }
  repeat (split; [assumption|]).
  exact (proj1 (@signup_creates_user Sample.runtime w payload H1 H2)).
Defined.

(** C5, as stated, fails: the request model accepts any age, the [User]
    model does not, and a signup with a fresh email and age 121 ends in a
    validation error with nothing created and no token in the answer. *)
Lemma signup_age_out_of_range_creates_nothing :
  let w := Sample.world VNone 0 in
  let payload :=
    SignupRequest.mk "Ravi" "ravi@example.com" "pw" Direction (Some 121) in
  (forall u, In u (collection w "user") ->
             fields u !! "email" <> Some (VStr (SignupRequest.email payload)))
  /\ @signup Sample.runtime payload w = (Raise ValidationError, w).
Proof.
  split.
  - intros u [<-|[]]. discriminate.
  - vm_compute. reflexivity.
Qed.

(** ** Updates of the matched user *)

Lemma set_one_union (key : string) (v : value) (m : dict) :
  <[key := v]> ∅ ∪ m = <[key := v]> m.
Proof. now rewrite <- insert_union_l, (left_id_L ∅ (∪)). Qed.

Lemma set_two_union (k1 k2 : string) (v1 v2 : value) (m : dict) :
  <[k1 := v1]> (<[k2 := v2]> ∅) ∪ m = <[k1 := v1]> (<[k2 := v2]> m).
Proof. now rewrite <- !insert_union_l, (left_id_L ∅ (∪)). Qed.

Lemma matches_id_update oid (d : Document) (set : dict) :
  matches "_id" (VOid oid) (mkDocument (_id d) (set ∪ fields d))
  = matches "_id" (VOid oid) d.
Proof. reflexivity. Qed.

(** After [update_one] by [_id], the record found under that [_id] is the
    record found before, with the new fields laid over it. *)
Lemma find_update_first_id oid (set : dict) (docs : list Document) :
  List.find (matches "_id" (VOid oid))
    (update_first "_id" (VOid oid) set docs)
  = match List.find (matches "_id" (VOid oid)) docs with
    | Some d => Some (mkDocument (_id d) (set ∪ fields d))
    | None => None
    end.
Proof.
  induction docs as [|d docs IH]; [reflexivity|].
  cbn [update_first List.find].
  destruct (matches "_id" (VOid oid) d) eqn:E.
  - cbn [List.find]. now rewrite matches_id_update, E.
  - cbn [List.find]. now rewrite E.
Qed.

Lemma update_first_no_match key v (set : dict) (docs : list Document) :
  List.find (matches key v) docs = None ->
  update_first key v set docs = docs.
Proof.
  induction docs as [|d docs IH]; [reflexivity|].
  cbn [update_first List.find].
  destruct (matches key v d); [discriminate|].
  intros E. now rewrite IH.
Qed.

Lemma collection_alter w' (f : list Document -> list Document) name
    (d : gmap string (list Document)) :
  db w' = alter f name d ->
  f [] = [] ->
  collection w' name = f (match d !! name with Some l => l | None => [] end).
Proof.
  unfold collection. intros -> Hf. rewrite lookup_alter_eq.
  destruct (d !! name) eqn:E; cbn; [reflexivity|]. now symmetry.
Qed.

Lemma to_object_id_Some {B} value oid (k : ObjectId -> M B) w :
  ObjectId_of_str value = Some oid ->
  bind (to_object_id value) k w = k oid w.
Proof. unfold to_object_id. now intros ->. Qed.

Lemma to_object_id_None {B} value (k : ObjectId -> M B) w :
  ObjectId_of_str value = None ->
  bind (to_object_id value) k w
  = (Raise (HTTPException 400 "Invalid ID format"), w).
Proof. unfold to_object_id. now intros ->. Qed.

(** ** Reflections *)

(** C7. A reflection whose user reference differs from the caller's id is
    refused with 403 Forbidden and nothing is written: the store, with its
    reflections and the users' scores, is left as it was. *)
Theorem add_reflection_foreign_user_forbidden `{Runtime} w payload current :
  Reflection.user_id payload <> AuthUser.id current ->
  add_reflection payload current w = (Raise (HTTPException 403 "Forbidden"), w).
Proof.
  intros Hne. unfold add_reflection.
  apply String.eqb_neq in Hne. now rewrite Hne.
Qed.

Lemma add_reflection_foreign_user_forbidden_witness :
  let w := Sample.world VNone 0 in
  let payload :=
    Reflection.mk "65f1c0de00000000000000ee" Mind "slept well" None None in
  Reflection.user_id payload <> AuthUser.id Sample.current
  /\ @add_reflection Sample.runtime payload Sample.current w
     = (Raise (HTTPException 403 "Forbidden"), w).
Proof.
  intros w payload.
  assert (H1 : Reflection.user_id payload <> AuthUser.id Sample.current)
    by discriminate.
  split; [assumption|].
  exact (@add_reflection_foreign_user_forbidden Sample.runtime w payload
           Sample.current H1).
Defined.

Lemma pillar_map_lookup p : pillar_map !! Pillar_str p = Some (pillar_field p).
Proof. destruct p; reflexivity. Qed.

Lemma user_record_other_collection w w' name docs uid :
  db w' = <[name := docs]> (db w) -> name <> "user" ->
  List.find (matches "_id" uid) (collection w' "user") = user_record w uid.
Proof.
  intros Hdb Hne. unfold user_record.
  now rewrite (collection_insert_ne w' name "user" docs (db w) Hdb Hne).
Qed.

(** C8. A reflection whose user reference is the caller's id is persisted
    with the time read from the server clock as [created_at], and the score
    field of its declared pillar is raised by 1 on the caller's user record;
    when that record is not found the scores are left alone, and the request
    succeeds with the reflection persisted all the same. *)
Theorem add_reflection_persists_and_increments `{Runtime} w payload current oid :
  Reflection.user_id payload = AuthUser.id current ->
  ObjectId_of_str (AuthUser.id current) = Some oid ->
  let field := pillar_field (Reflection.pillar payload) in
  (forall u, user_record w (VOid oid) = Some u ->
             exists score, counter u field 0 = Return score) ->
  let out := add_reflection payload current w in
  let new_id := object_ids w 0%nat in
  let record :=
    mkDocument new_id
      (<["created_at" := VDate (milliseconds (clock w 0%nat))]>
         (Reflection.model_dump payload)) in
  out.1 = Return (ReflectionCreated (str_ObjectId new_id))
  /\ collection out.2 "reflection"
     = (collection w "reflection" ++ [record])%list
  /\ match user_record w (VOid oid) with
     | Some u =>
         forall score, counter u field 0 = Return score ->
           user_record out.2 (VOid oid)
           = Some (mkDocument (_id u) (<[field := VInt (score + 1)]> (fields u)))
     | None => collection out.2 "user" = collection w "user"
     end.
Proof.
  intros Hown Hoid field Hint. cbn zeta.
  unfold add_reflection.
  rewrite Hown, String.eqb_refl. cbn [negb]. run. store.
  rewrite (to_object_id_Some _ oid) by exact Hoid. run.
  erewrite (user_record_other_collection w); [|reflexivity|discriminate].
  destruct (user_record w (VOid oid)) as [u|] eqn:Eu.
  - rewrite pillar_map_lookup. fold field.
    destruct (Hint u eq_refl) as [score Hscore].
    rewrite bind_bind, (to_object_id_Some _ oid) by exact Hoid.
    rewrite bind_bind. unfold counter in Hscore. rewrite Hscore. run. store.
    settle.
    split; [reflexivity|]. split.
    + unfold collection. cbn [db]. rewrite lookup_alter_ne by discriminate.
      now rewrite lookup_insert_eq.
    + intros score' Hscore'. unfold counter in Hscore'.
      rewrite Hscore in Hscore'. injection Hscore' as <-.
      unfold user_record.
      erewrite collection_alter; [|reflexivity|reflexivity].
      rewrite lookup_insert_ne by discriminate.
      rewrite find_update_first_id. fold (collection w "user").
      fold (user_record w (VOid oid)). rewrite Eu.
      now rewrite set_one_union.
  - run. settle. split; [reflexivity|]. split.
    + unfold collection. cbn [db]. now rewrite lookup_insert_eq.
    + unfold collection. cbn [db]. now rewrite lookup_insert_ne by discriminate.
Qed.

Lemma sample_user_record expires_at now oid u :
  user_record (Sample.world expires_at now) (VOid oid) = Some u ->
  u = Sample.asha.
Proof.
  unfold user_record.
  change (collection (Sample.world expires_at now) "user") with [Sample.asha].
  cbn [List.find]. destruct (matches "_id" (VOid oid) Sample.asha);
    [|discriminate].
  intros E. now injection E as <-.
Defined.

Lemma add_reflection_persists_and_increments_witness :
  let w := Sample.world VNone 42 in
  let payload :=
    Reflection.mk "65f1c0de00000000000000a1" Meaning "walked" None None in
  Reflection.user_id payload = AuthUser.id Sample.current
  /\ ObjectId_of_str (AuthUser.id Sample.current) = Some Sample.asha_id
  /\ (forall u, user_record w (VOid Sample.asha_id) = Some u ->
                exists score,
                  @counter Sample.runtime u "tana_meaning" 0 = Return score)
  /\ (@add_reflection Sample.runtime payload Sample.current w).1
     = Return (ReflectionCreated "65f1c0de00000000000000c0").
Proof.
  intros w payload.
  assert (H1 : Reflection.user_id payload = AuthUser.id Sample.current)
    by reflexivity.
  assert (H2 : ObjectId_of_str (AuthUser.id Sample.current)
               = Some Sample.asha_id) by reflexivity.
  assert (H3 : forall u, user_record w (VOid Sample.asha_id) = Some u ->
                 exists score,
                   @counter Sample.runtime u "tana_meaning" 0 = Return score).
  { intros u E. apply sample_user_record in E. subst u. now exists 2. }
  repeat (split; [assumption|]).
  exact (proj1 (@add_reflection_persists_and_increments Sample.runtime w
                  payload Sample.current Sample.asha_id H1 H2 H3)).
Defined.

(** The same request run to its end: the meaning score goes from 2 to 3
    and the other two stay at 1. *)
Example add_reflection_sample_scores :
  let w := Sample.world VNone 42 in
  let payload :=
    Reflection.mk "65f1c0de00000000000000a1" Meaning "walked" None None in
  let out := @add_reflection Sample.runtime payload Sample.current w in
  (fun u => (get (fields u) "tana_mind" VNone,
             get (fields u) "tana_money" VNone,
             get (fields u) "tana_meaning" VNone))
    <$> user_record out.2 (VOid Sample.asha_id)
  = Some (VInt 1, VInt 1, VInt 3).
Proof. vm_compute. reflexivity. Qed.

(** ** Session booking *)

Lemma get_insert_eq (m : dict) key v default :
  get (<[key := v]> m) key default = v.
Proof. unfold get. now rewrite lookup_insert_eq. Qed.

Lemma get_insert_ne (m : dict) key key' v default :
  key <> key' -> get (<[key := v]> m) key' default = get m key' default.
Proof. intros Hne. unfold get. now rewrite lookup_insert_ne. Qed.

Lemma user_record_after_update w w' oid (set : dict) name1 docs1 name2 docs2 :
  db w'
  = <[name2 := docs2]>
      (alter (update_first "_id" (VOid oid) set) "user"
         (<[name1 := docs1]> (db w))) ->
  name1 <> "user" -> name2 <> "user" ->
  user_record w' (VOid oid)
  = match user_record w (VOid oid) with
    | Some d => Some (mkDocument (_id d) (set ∪ fields d))
    | None => None
    end.
Proof.
  intros Hdb H1 H2. unfold user_record at 1.
  rewrite (collection_insert_ne w' name2 "user" docs2 _ Hdb H2).
  rewrite lookup_alter_eq, lookup_insert_ne by exact H1.
  fold (collection w "user").
  replace (match update_first "_id" (VOid oid) set <$> db w !! "user" with
           | Some l => l
           | None => []
           end)
    with (update_first "_id" (VOid oid) set (collection w "user"))
    by (unfold collection; now destruct (db w !! "user")).
  apply find_update_first_id.
Qed.

(** C2. A booking by a caller whose [sessions_used] equals [total_sessions]
    is answered with [{limited: true}], not with an error, and the store is
    left as it was: no Session record, the same [sessions_used], the same
    scores. *)
Theorem create_session_at_quota_is_limited `{Runtime}
    w payload current oid u n :
  ObjectId_of_str (AuthUser.id current) = Some oid ->
  user_record w (VOid oid) = Some u ->
  counter u "sessions_used" 0 = Return n ->
  counter u "total_sessions" 3 = Return n ->
  create_session payload current w
  = (Return (Limited "Session limit reached"), w).
Proof.
  intros Hoid Hu Hused Htotal. unfold create_session.
  rewrite (to_object_id_Some _ oid) by exact Hoid. run.
  fold (user_record w (VOid oid)). rewrite Hu.
  unfold counter in Hused, Htotal. rewrite Hused. run.
  rewrite Htotal. run. now rewrite Z.leb_refl.
Qed.

Lemma create_session_at_quota_is_limited_witness :
  let full :=
    mkDocument Sample.asha_id
      (User.model_dump
         (User.mk "Asha" "asha@example.com" Growth (Some 31) 1 1 2 3 3)) in
  let w :=
    mkWorld (<["user" := [full]]> ∅) (fun _ => 0) Sample.ids (fun _ => "") in
  let payload :=
    Session.mk "" "Mind reset" "2025-01-10" "10:00" None None requested in
  ObjectId_of_str (AuthUser.id Sample.current) = Some Sample.asha_id
  /\ user_record w (VOid Sample.asha_id) = Some full
  /\ @counter Sample.runtime full "sessions_used" 0 = Return 3
  /\ @counter Sample.runtime full "total_sessions" 3 = Return 3
  /\ @create_session Sample.runtime payload Sample.current w
     = (Return (Limited "Session limit reached"), w).
Proof.
  intros full w payload.
  assert (H1 : ObjectId_of_str (AuthUser.id Sample.current)
               = Some Sample.asha_id) by reflexivity.
  assert (H2 : user_record w (VOid Sample.asha_id) = Some full) by reflexivity.
  assert (H3 : @counter Sample.runtime full "sessions_used" 0 = Return 3)
    by reflexivity.
  assert (H4 : @counter Sample.runtime full "total_sessions" 3 = Return 3)
    by reflexivity.
  repeat (split; [assumption|]).
  exact (@create_session_at_quota_is_limited Sample.runtime w payload
           Sample.current Sample.asha_id full 3 H1 H2 H3 H4).
Defined.

(** C3. A booking by a caller below the quota persists the Session (with
    the caller's id as its user reference), raises [sessions_used] by 1, and
    raises exactly one score by 1 when the lower-cased topic contains "mind",
    "money" or "meaning", the first of the three in that order deciding
    which; with none of them in the topic the three scores are unchanged. *)
Theorem create_session_books_and_counts `{Runtime}
    w payload current oid u used total mind money meaning :
  ObjectId_of_str (AuthUser.id current) = Some oid ->
  user_record w (VOid oid) = Some u ->
  counter u "sessions_used" 0 = Return used ->
  counter u "total_sessions" 3 = Return total ->
  used < total ->
  counter u "tana_mind" 0 = Return mind ->
  counter u "tana_money" 0 = Return money ->
  counter u "tana_meaning" 0 = Return meaning ->
  let out := create_session payload current w in
  let new_id := object_ids w 0%nat in
  let topic_lower := lower (Session.topic payload) in
  let session :=
    mkDocument new_id
      (Session.model_dump
         (Session.mk (AuthUser.id current) (Session.topic payload)
            (Session.date payload) (Session.time payload)
            (Session.feedback payload) (Session.spatial_url payload)
            (Session.status payload))) in
  out.1 = Return (SessionCreated (str_ObjectId new_id))
  /\ collection out.2 "session" = (collection w "session" ++ [session])%list
  /\ exists u',
       user_record out.2 (VOid oid) = Some u'
       /\ counter u' "sessions_used" 0 = Return (used + 1)
       /\ (counter u' "tana_mind" 0, counter u' "tana_money" 0,
           counter u' "tana_meaning" 0)
          = if contains topic_lower "mind"
            then (Return (mind + 1), Return money, Return meaning)
            else if contains topic_lower "money"
            then (Return mind, Return (money + 1), Return meaning)
            else if contains topic_lower "meaning"
            then (Return mind, Return money, Return (meaning + 1))
            else (Return mind, Return money, Return meaning).
Proof.
  intros Hoid Hu Hused Htotal Hlt Hmind Hmoney Hmeaning. cbn zeta.
  unfold create_session.
  rewrite (to_object_id_Some _ oid) by exact Hoid. run.
  fold (user_record w (VOid oid)). rewrite Hu.
  unfold counter in Hused, Htotal. rewrite Hused. run. rewrite Htotal. run.
  apply Z.leb_gt in Hlt. rewrite Hlt. run.
  cbn [Session.topic Session.date Session.time].
  unfold pillar_of_topic.
  assert (Hsession :
    forall w' docs set,
      db w' = <["email_log" := docs]>
                (alter (update_first "_id" (VOid oid) set) "user"
                   (<["session" :=
                        (collection w "session"
                         ++ [mkDocument (object_ids w 0%nat)
                               (Session.model_dump
                                  (Session.mk (AuthUser.id current)
                                     (Session.topic payload)
                                     (Session.date payload)
                                     (Session.time payload)
                                     (Session.feedback payload)
                                     (Session.spatial_url payload)
                                     (Session.status payload)))])%list]>
                      (db w))) ->
      collection w' "session"
      = (collection w "session"
         ++ [mkDocument (object_ids w 0%nat)
               (Session.model_dump
                  (Session.mk (AuthUser.id current) (Session.topic payload)
                     (Session.date payload) (Session.time payload)
                     (Session.feedback payload) (Session.spatial_url payload)
                     (Session.status payload)))])%list).
  { intros w' docs set Hdb. unfold collection at 1. rewrite Hdb.
    rewrite lookup_insert_ne, lookup_alter_ne by discriminate.
    now rewrite lookup_insert_eq. }
  destruct (contains (lower (Session.topic payload)) "mind") eqn:Cmind;
    [|destruct (contains (lower (Session.topic payload)) "money") eqn:Cmoney;
      [|destruct (contains (lower (Session.topic payload)) "meaning")
          eqn:Cmeaning]].
  all: unfold counter in Hmind, Hmoney, Hmeaning.
  all: rewrite ?bind_bind, ?Hmind, ?Hmoney, ?Hmeaning; run.
  all: rewrite ?bind_bind, (to_object_id_Some _ oid) by exact Hoid; run.
  all: store.
  all: settle.
  all: split; [reflexivity|].
  all: split; [eapply Hsession; reflexivity|].
  all: eexists; split;
    [erewrite user_record_after_update;
       [rewrite Hu; reflexivity|reflexivity|discriminate|discriminate]|].
  all: unfold counter; cbn [fields].
  all: rewrite ?set_two_union, ?set_one_union.
  all: rewrite ?get_insert_eq, ?get_insert_ne by discriminate.
  all: rewrite ?get_insert_eq, ?get_insert_ne by discriminate.
  all: rewrite ?Hused, ?Hmind, ?Hmoney, ?Hmeaning.
  all: split; reflexivity.
Qed.

Lemma create_session_books_and_counts_witness :
  let w := Sample.world VNone 42 in
  let payload :=
    Session.mk "" "Mind reset" "2025-01-10" "10:00" None None requested in
  let out := @create_session Sample.runtime payload Sample.current w in
  ObjectId_of_str (AuthUser.id Sample.current) = Some Sample.asha_id
  /\ user_record w (VOid Sample.asha_id) = Some Sample.asha
  /\ @counter Sample.runtime Sample.asha "sessions_used" 0 = Return 1
  /\ @counter Sample.runtime Sample.asha "total_sessions" 3 = Return 3
  /\ 1 < 3
  /\ @counter Sample.runtime Sample.asha "tana_mind" 0 = Return 1
  /\ @counter Sample.runtime Sample.asha "tana_money" 0 = Return 1
  /\ @counter Sample.runtime Sample.asha "tana_meaning" 0 = Return 2
  /\ out.1 = Return (SessionCreated "65f1c0de00000000000000c0")
  /\ exists u',
       user_record out.2 (VOid Sample.asha_id) = Some u'
       /\ @counter Sample.runtime u' "sessions_used" 0 = Return 2
       /\ (@counter Sample.runtime u' "tana_mind" 0,
           @counter Sample.runtime u' "tana_money" 0,
           @counter Sample.runtime u' "tana_meaning" 0)
          = (Return 2, Return 1, Return 2).
Proof.
  intros w payload out.
  assert (H1 : ObjectId_of_str (AuthUser.id Sample.current)
               = Some Sample.asha_id) by reflexivity.
  assert (H2 : user_record w (VOid Sample.asha_id) = Some Sample.asha)
    by reflexivity.
  assert (H3 : @counter Sample.runtime Sample.asha "sessions_used" 0
               = Return 1) by reflexivity.
  assert (H4 : @counter Sample.runtime Sample.asha "total_sessions" 3
               = Return 3) by reflexivity.
  assert (H5 : 1 < 3) by reflexivity.
  assert (H6 : @counter Sample.runtime Sample.asha "tana_mind" 0 = Return 1)
    by reflexivity.
  assert (H7 : @counter Sample.runtime Sample.asha "tana_money" 0 = Return 1)
    by reflexivity.
  assert (H8 : @counter Sample.runtime Sample.asha "tana_meaning" 0
               = Return 2) by reflexivity.
  repeat (split; [assumption|]).
  pose proof (@create_session_books_and_counts Sample.runtime w payload
                Sample.current Sample.asha_id Sample.asha 1 3 1 1 2
                H1 H2 H3 H4 H5 H6 H7 H8) as (Hr & _ & Hu).
  split; [exact Hr|exact Hu].
Defined.

(** The spec's two bookings: "Mind reset" raises [tana_mind] and
    [sessions_used]; "general chat" raises [sessions_used] only. *)
Example create_session_sample_topics :
  let w := Sample.world VNone 42 in
  let book topic :=
    let payload :=
      Session.mk "" topic "2025-01-10" "10:00" None None requested in
    let out := @create_session Sample.runtime payload Sample.current w in
    (fun u => (get (fields u) "sessions_used" VNone,
               get (fields u) "tana_mind" VNone,
               get (fields u) "tana_money" VNone,
               get (fields u) "tana_meaning" VNone))
      <$> user_record out.2 (VOid Sample.asha_id) in
  book "Mind reset" = Some (VInt 2, VInt 2, VInt 1, VInt 2)
  /\ book "general chat" = Some (VInt 2, VInt 1, VInt 1, VInt 2)
  /\ book "Money and meaning" = Some (VInt 2, VInt 1, VInt 2, VInt 2)
  /\ book "MEANING of work" = Some (VInt 2, VInt 1, VInt 1, VInt 3).
Proof. vm_compute. repeat split. Qed.

(** C10. Every successful booking appends one EmailLog entry whose
    recipient is the literal "Jagathisraj4@gmail.com", whoever the caller
    is; of the entry only the body depends on the request, through the
    user's name and the session's topic, date and time. *)
Theorem create_session_email_log_recipient `{Runtime}
    w w' payload current sid :
  create_session payload current w = (Return (SessionCreated sid), w') ->
  exists oid u,
    ObjectId_of_str (AuthUser.id current) = Some oid
    /\ user_record w (VOid oid) = Some u
    /\ collection w' "email_log"
       = (collection w "email_log"
          ++ [mkDocument (object_ids w 1%nat) (
                <["to" := VStr "Jagathisraj4@gmail.com"]> (
                <["subject" := VStr "New TANA Session Request"]> (
                <["body" :=
                    VStr ("User " +:+ py_str (get (fields u) "name" VNone)
                          +:+ " requested a session on "
                          +:+ Session.topic payload
                          +:+ " for " +:+ Session.date payload
                          +:+ " " +:+ Session.time payload)]> (
                <["created_at" := VDate (milliseconds (clock w 0%nat))]>
                  ∅))))])%list.
Proof.
  unfold create_session.
  destruct (ObjectId_of_str (AuthUser.id current)) as [oid|] eqn:Hoid;
    [|rewrite to_object_id_None by exact Hoid; discriminate].
  rewrite (to_object_id_Some _ oid) by exact Hoid. run.
  fold (user_record w (VOid oid)).
  destruct (user_record w (VOid oid)) as [u|] eqn:Hu; [|discriminate].
  destruct (py_int (get (fields u) "sessions_used" (VInt 0))) as [used|e];
    run; [|discriminate].
  destruct (py_int (get (fields u) "total_sessions" (VInt 3))) as [total|e];
    run; [|discriminate].
  destruct (total <=? used); [discriminate|]. run.
  cbn [Session.topic Session.date Session.time].
  assert (Hlog :
    forall docs set clk ids uu clk' ids' uu' entry,
      collection
        (mkWorld
           (<["email_log" :=
                (collection
                   (mkWorld
                      (alter (update_first "_id" (VOid oid) set) "user"
                         (<["session" := docs]> (db w))) clk ids uu)
                   "email_log" ++ [entry])%list]>
              (alter (update_first "_id" (VOid oid) set) "user"
                 (<["session" := docs]> (db w))))
           clk' ids' uu')
        "email_log"
      = (collection w "email_log" ++ [entry])%list).
  { intros. unfold collection. cbn [db]. rewrite lookup_insert_eq.
    rewrite lookup_alter_ne, lookup_insert_ne by discriminate. reflexivity. }
  destruct (pillar_of_topic (lower (Session.topic payload))) as [field|].
  - rewrite bind_bind.
    destruct (py_int (get (fields u) field (VInt 0))) as [score|e];
      run; [|discriminate].
    rewrite (to_object_id_Some _ oid) by exact Hoid. run. settle.
    intros E. injection E as _ <-. exists oid, u.
    split; [reflexivity|]. split; [exact Hu|]. rewrite Hlog. now store.
  - run. rewrite (to_object_id_Some _ oid) by exact Hoid. run. settle.
    intros E. injection E as _ <-. exists oid, u.
    split; [reflexivity|]. split; [exact Hu|]. rewrite Hlog. now store.
Qed.

Lemma create_session_email_log_recipient_witness :
  let w := Sample.world VNone 42 in
  let payload :=
    Session.mk "" "Money plan" "2025-01-10" "10:00" None None requested in
  let out := @create_session Sample.runtime payload Sample.current w in
  out = (Return (SessionCreated "65f1c0de00000000000000c0"), out.2)
  /\ exists oid u,
       ObjectId_of_str (AuthUser.id Sample.current) = Some oid
       /\ user_record w (VOid oid) = Some u
       /\ collection out.2 "email_log"
          = (collection w "email_log"
             ++ [mkDocument (object_ids w 1%nat) (
                   <["to" := VStr "Jagathisraj4@gmail.com"]> (
                   <["subject" := VStr "New TANA Session Request"]> (
                   <["body" :=
                       VStr ("User "
                             +:+ @py_str Sample.runtime
                                   (get (fields u) "name" VNone)
                             +:+ " requested a session on "
                             +:+ Session.topic payload
                             +:+ " for " +:+ Session.date payload
                             +:+ " " +:+ Session.time payload)]> (
                   <["created_at" := VDate (milliseconds (clock w 0%nat))]>
                     ∅))))])%list.
Proof.
  intros w payload out.
  assert (H1 : out = (Return (SessionCreated "65f1c0de00000000000000c0"),
                      out.2)) by (vm_compute; reflexivity).
  split; [exact H1|].
  exact (@create_session_email_log_recipient Sample.runtime w out.2 payload
           Sample.current "65f1c0de00000000000000c0" H1).
Defined.

(** The entry that booking leaves in the log. *)
Example create_session_sample_email :
  let w := Sample.world VNone 42 in
  let payload :=
    Session.mk "" "Money plan" "2025-01-10" "10:00" None None requested in
  let out := @create_session Sample.runtime payload Sample.current w in
  (fun e => (get (fields e) "to" VNone, get (fields e) "body" VNone))
    <$> collection out.2 "email_log"
  = [(VStr "Jagathisraj4@gmail.com",
      VStr "User Asha requested a session on Money plan for 2025-01-10 10:00")].
Proof. vm_compute. reflexivity. Qed.

(** ** Dashboard *)

(** *** Binary64 rounding stays finite on moderate operands *)

Lemma digits2_pos_size p : digits2_pos p = Pos.size p.
Proof. induction p; cbn; congruence. Qed.

Lemma Zdigits2_pos_bounds p :
  2 ^ (Z.pos (digits2_pos p) - 1) <= Z.pos p < 2 ^ Z.pos (digits2_pos p).
Proof.
  rewrite digits2_pos_size. split.
  - pose proof (Pos.size_le p) as H.
    assert (H' : (Z.pos (2 ^ Pos.size p) <= Z.pos p~0)) by exact H.
    rewrite Pos2Z.inj_pow in H'.
    replace (Z.pos (Pos.size p)) with (Z.pos (Pos.size p) - 1 + 1) in H' by lia.
    rewrite Z.pow_add_r in H' by lia. change (2 ^ 1) with 2 in H'. lia.
  - pose proof (Pos.size_gt p) as H.
    assert (H' : (Z.pos p < Z.pos (2 ^ Pos.size p))) by exact H.
    now rewrite Pos2Z.inj_pow in H'.
Qed.


Lemma Zdigits2_lt m : 0 <= m -> m < 2 ^ Zdigits2 m.
Proof.
  destruct m as [|p|p]; intros Hm; [cbn; lia| |lia].
  apply Zdigits2_pos_bounds.
Qed.

Lemma Zdigits2_le m k : 0 <= m -> 0 <= k -> m < 2 ^ k -> Zdigits2 m <= k.
Proof.
  destruct m as [|p|p]; intros Hm Hk Hlt; [cbn; lia| |lia].
  cbn. destruct (Z_le_gt_dec (Z.pos (digits2_pos p)) k) as [|Hgt]; [assumption|].
  exfalso. pose proof (Zdigits2_pos_bounds p) as [Hlo _].
  assert (2 ^ k <= 2 ^ (Z.pos (digits2_pos p) - 1))
    by (apply Z.pow_le_mono_r; lia).
  lia.
Qed.

Lemma shr_m_shr_1 mrs : 0 <= shr_m mrs -> shr_m (shr_1 mrs) = shr_m mrs / 2.
Proof.
  destruct mrs as [m r s]. cbn [shr_m]. intros Hm.
  rewrite <- Z.div2_div.
  destruct m as [|[p|p|]|p]; try reflexivity; lia.
Qed.

Lemma shr_m_iter p : forall mrs,
  0 <= shr_m mrs ->
  shr_m (SpecFloat.iter_pos shr_1 p mrs) = shr_m mrs / 2 ^ Z.pos p.
Proof.
  induction p as [p IH|p IH|]; intros mrs Hm; cbn [SpecFloat.iter_pos].
  - assert (H1 : 0 <= shr_m (shr_1 mrs))
      by (rewrite shr_m_shr_1 by assumption; apply Z.div_pos; lia).
    assert (H2 : 0 <= shr_m (SpecFloat.iter_pos shr_1 p (shr_1 mrs)))
      by (rewrite IH by assumption; apply Z.div_pos; lia).
    rewrite IH, IH, shr_m_shr_1 by assumption.
    rewrite !Z.div_div by lia.
    f_equal. replace (Z.pos p~1) with (1 + Z.pos p + Z.pos p) by lia.
    rewrite !Z.pow_add_r by lia. change (2 ^ 1) with 2. lia.
  - assert (H2 : 0 <= shr_m (SpecFloat.iter_pos shr_1 p mrs))
      by (rewrite IH by assumption; apply Z.div_pos; lia).
    rewrite IH, IH by assumption.
    rewrite !Z.div_div by lia.
    f_equal. replace (Z.pos p~0) with (Z.pos p + Z.pos p) by lia.
    rewrite !Z.pow_add_r by lia. lia.
  - now rewrite shr_m_shr_1.
Qed.

Lemma shr_m_of_loc m l : shr_m (shr_record_of_loc m l) = m.
Proof. destruct l as [|[]]; reflexivity. Qed.

Lemma fexp_eq x : fexp 53 1024 x = Z.max (x - 53) (-1074).
Proof. reflexivity. Qed.


Lemma round_nearest_even_bounds m l :
  m <= round_nearest_even m l <= m + 1.
Proof.
  unfold round_nearest_even.
  destruct l as [|[]]; try lia. destruct (Z.even m); lia.
Qed.




Lemma round_no_zero_division x : Float.round x <> Raise ZeroDivisionError.
Proof. destruct x; discriminate. Qed.

Lemma mul_int_100 x :
  Float.mul_int x 100
  = Return (SFmul Float.prec Float.emax x
              (S754_finite false 7036874417766400 (-46))).
Proof. reflexivity. Qed.

Lemma percentage_no_zero_division score total :
  1 <= total -> percentage score total <> Raise ZeroDivisionError.
Proof.
  intros Ht. unfold percentage, Float.truediv.
  destruct (total =? 0) eqn:E; [apply Z.eqb_eq in E; lia|].
  destruct (SFdiv Float.prec Float.emax (Float.exact score)
              (Float.exact total)) as [s|s| |s m e]; try discriminate;
    rewrite mul_int_100; apply round_no_zero_division.
Qed.




(** A few percentages as Python computes them; 23/40 and 29/200 show the
    binary64 product falling just below the half. *)
Example percentage_samples :
  percentage 0 1 = Return 0
  /\ percentage 1 4 = Return 25 /\ percentage 2 4 = Return 50
  /\ percentage 1 3 = Return 33 /\ percentage 2 3 = Return 67
  /\ percentage 1 8 = Return 12 /\ percentage 3 8 = Return 38
  /\ percentage 23 40 = Return 57 /\ percentage 29 200 = Return 14
  /\ percentage 7 7 = Return 100.
Proof. vm_compute. repeat split. Qed.

(** * Further properties of the endpoints *)

(** ** The bearer header *)

(** X1. Without a header, with an empty one, or with one that does not
    start with "bearer " in any letter case, the answer is the 401
    "Missing or invalid authorization header"; the store is not consulted
    and nothing changes. *)
Theorem get_current_user_rejects_bad_header w authorization :
  (forall a, authorization = Some a ->
             startswith (lower a) "bearer " = false) ->
  get_current_user authorization w
  = (Raise (HTTPException 401 "Missing or invalid authorization header"), w).
Proof.
  intros Hbad. unfold get_current_user.
  destruct authorization as [a|]; [|reflexivity].
  rewrite (Hbad a eq_refl). cbn [negb]. now rewrite orb_true_r.
Qed.

Lemma get_current_user_rejects_bad_header_witness :
  let w := Sample.world VNone 0 in
  (forall a, Some "Token 9f86d081884c7d659a2feaa0c55ad015" = Some a ->
             startswith (lower a) "bearer " = false)
  /\ get_current_user (Some "Token 9f86d081884c7d659a2feaa0c55ad015") w
     = (Raise (HTTPException 401 "Missing or invalid authorization header"),
        w).
Proof.
  intros w.
  assert (H1 : forall a,
             Some "Token 9f86d081884c7d659a2feaa0c55ad015" = Some a ->
             startswith (lower a) "bearer " = false).
  { intros a E. injection E as <-. reflexivity. }
  split; [exact H1|].
  exact (get_current_user_rejects_bad_header w _ H1).
Defined.

(** Every step of the resolution leaves the store, the identifier supply
    and the token supply alone. *)
Lemma get_current_user_world authorization w :
  let w' := (get_current_user authorization w).2 in
  db w' = db w /\ object_ids w' = object_ids w /\ uuids w' = uuids w.
Proof.
  cbn zeta.
  destruct (get_current_user authorization w) as [r w'] eqn:E. cbn [snd].
  unfold get_current_user in E.
  assert (Leaf : forall (x : Result AuthUser.t) c,
             (x, mkWorld (db w) c (object_ids w) (uuids w)) = (r, w') ->
             db w' = db w /\ object_ids w' = object_ids w
             /\ uuids w' = uuids w)
    by (intros x c L; injection L as <- <-; now repeat split).
  assert (Leaf0 : forall (x : Result AuthUser.t), (x, w) = (r, w') ->
             db w' = db w /\ object_ids w' = object_ids w
             /\ uuids w' = uuids w)
    by (intros x L; injection L as <- <-; now repeat split).
  destruct authorization as [a|]; [|exact (Leaf0 _ E)].
  destruct (negb (truthy (VStr a)) || negb (startswith (lower a) "bearer "));
    [exact (Leaf0 _ E)|].
  unfold index in E.
  destruct (split a " " !! 1%nat) as [token|]; autorewrite with run in E;
    [|exact (Leaf0 _ E)].
  destruct (List.find _ _) as [d|]; [|exact (Leaf0 _ E)].
  assert (Tail : forall w0,
    db w0 = db w -> object_ids w0 = object_ids w -> uuids w0 = uuids w ->
    (let! user_id := lift (getitem (fields d) "user_id") in
     let! user := find_one "user" "_id" user_id in
     match user with
     | None => raise (HTTPException 401 "User not found")
     | Some user =>
         lift (AuthUser.new (str_ObjectId (_id user))
                 (get (fields user) "name" (VStr ""))
                 (get (fields user) "email" (VStr "")))
     end) w0 = (r, w') ->
    db w' = db w /\ object_ids w' = object_ids w /\ uuids w' = uuids w).
  { intros w0 H1 H2 H3 T. unfold getitem in T.
    destruct (fields d !! "user_id") as [uid|]; autorewrite with run in T.
    - destruct (List.find _ _) as [u|]; injection T as <- <-; now repeat split.
    - injection T as <- <-; now repeat split. }
  destruct (truthy (get (fields d) "expires_at" VNone)).
  - rewrite bind_bind in E. unfold getitem at 1 in E.
    destruct (fields d !! "expires_at") as [e|]; autorewrite with run in E;
      [|exact (Leaf0 _ E)].
    rewrite bind_bind in E. autorewrite with run in E. unfold lt_datetime in E.
    destruct e as [|z|s|o|t]; autorewrite with run in E;
      try exact (Leaf _ _ E).
    destruct (t <? clock w 0%nat); autorewrite with run in E;
      [exact (Leaf _ _ E)|].
    refine (Tail _ _ _ _ E); reflexivity.
  - autorewrite with run in E. refine (Tail _ _ _ _ E); reflexivity.
Qed.

(** X2. Resolving a token never writes: whatever the header and the
    outcome, the collections, the identifier supply and the token supply
    are as before. *)
Theorem get_current_user_never_writes authorization w name :
  let w' := (get_current_user authorization w).2 in
  collection w' name = collection w name
  /\ object_ids w' = object_ids w /\ uuids w' = uuids w.
Proof.
  cbn zeta.
  destruct (get_current_user_world authorization w) as (Hdb & Hids & Hu).
  unfold collection. now rewrite Hdb.
Qed.

Lemma lower_app a b : lower (a +:+ b) = lower a +:+ lower b.
Proof.
  induction a as [|c a IH]; simpl; [reflexivity|]. rewrite IH. reflexivity.
Qed.

Lemma ascii_lower_space c : Ascii.eqb (ascii_lower c) " " = Ascii.eqb c " ".
Proof. destruct c as [[] [] [] [] [] [] [] []]; reflexivity. Qed.

Lemma nospace_lower s : nospace (lower s) = nospace s.
Proof.
  induction s as [|c s IH]; cbn; [reflexivity|].
  now rewrite ascii_lower_space, IH.
Qed.

Lemma split_nospace s : nospace s = true -> split s " " = [s].
Proof.
  induction s as [|c s IH]; cbn; [reflexivity|].
  intros Hs. apply andb_true_iff in Hs as [Hc Hs].
  apply negb_true_iff in Hc. rewrite Hc, (IH Hs). reflexivity.
Qed.

Lemma split_nospace_app s rest :
  nospace s = true -> split (s +:+ String " " rest) " " = s :: split rest " ".
Proof.
  induction s as [|c s IH]; cbn; [reflexivity|].
  intros Hs. apply andb_true_iff in Hs as [Hc Hs].
  apply negb_true_iff in Hc.
  change (String c s +:+ String " " rest)
    with (String c (s +:+ String " " rest)).
  cbn [split]. rewrite Hc, (IH Hs). reflexivity.
Qed.

Lemma bearer_scheme scheme rest token :
  lower scheme = "bearer" ->
  split rest " " !! 0%nat = Some token ->
  bearer (scheme +:+ " " +:+ rest) token.
Proof.
  intros Hs Hrest.
  assert (Hns : nospace scheme = true)
    by (rewrite <- nospace_lower, Hs; reflexivity).
  repeat split.
  - destruct scheme; [discriminate|reflexivity].
  - rewrite lower_app, Hs. change (" " +:+ rest) with (String " " rest).
    cbn. now destruct (lower rest).
  - change (" " +:+ rest) with (String " " rest).
    rewrite (split_nospace_app _ _ Hns). exact Hrest.
Qed.

Lemma get_current_user_bearer a a' token w :
  bearer a token -> bearer a' token ->
  get_current_user (Some a) w = get_current_user (Some a') w.
Proof.
  intros (Ht & Hs & Hsp) (Ht' & Hs' & Hsp'). unfold get_current_user.
  rewrite Ht, Hs, Ht', Hs'. cbn [negb orb]. unfold index.
  now rewrite Hsp, Hsp'.
Qed.

(** X3. The scheme is read without regard to letter case and the token is
    the text between the first and the second space: any header made of a
    spelling of "bearer", a space and the token, with or without further
    text after another space, resolves exactly as "Bearer <token>". *)
Theorem get_current_user_header_forms w scheme token junk :
  lower scheme = "bearer" -> nospace token = true ->
  get_current_user (Some (scheme +:+ " " +:+ token)) w
  = get_current_user (Some ("Bearer " +:+ token)) w
  /\ get_current_user (Some (scheme +:+ " " +:+ token +:+ " " +:+ junk)) w
     = get_current_user (Some ("Bearer " +:+ token)) w.
Proof.
  intros Hs Ht.
  assert (H0 : bearer ("Bearer " +:+ token) token).
  { apply (bearer_scheme "Bearer" token token eq_refl).
    now rewrite (split_nospace _ Ht). }
  split; apply (get_current_user_bearer _ _ token); try exact H0.
  - apply bearer_scheme; [exact Hs|]. now rewrite (split_nospace _ Ht).
  - apply bearer_scheme; [exact Hs|].
    change (" " +:+ junk) with (String " " junk).
    now rewrite (split_nospace_app _ _ Ht).
Qed.

Lemma get_current_user_header_forms_witness :
  let w := Sample.world (VDate 9000) 5000 in
  lower "BEARER" = "bearer" /\ nospace Sample.token = true
  /\ get_current_user (Some ("BEARER" +:+ " " +:+ Sample.token)) w
     = get_current_user (Some ("Bearer " +:+ Sample.token)) w
  /\ get_current_user
       (Some ("BEARER" +:+ " " +:+ Sample.token +:+ " " +:+ "x y")) w
     = get_current_user (Some ("Bearer " +:+ Sample.token)) w.
Proof.
  intros w.
  assert (H1 : lower "BEARER" = "bearer") by reflexivity.
  assert (H2 : nospace Sample.token = true) by reflexivity.
  repeat (split; [assumption|]).
  exact (get_current_user_header_forms w "BEARER" Sample.token "x y" H1 H2).
Defined.

(** ** Identifiers and the resolved identity *)

Lemma ascii_lower_idem c : ascii_lower (ascii_lower c) = ascii_lower c.
Proof. destruct c as [[] [] [] [] [] [] [] []]; reflexivity. Qed.

Lemma is_hex_digit_lower c : is_hex_digit (ascii_lower c) = is_hex_digit c.
Proof. destruct c as [[] [] [] [] [] [] [] []]; reflexivity. Qed.

Lemma lower_idem s : lower (lower s) = lower s.
Proof.
  induction s as [|c s IH]; cbn; [reflexivity|].
  now rewrite ascii_lower_idem, IH.
Qed.

Lemma length_lower s : String.length (lower s) = String.length s.
Proof. induction s as [|c s IH]; cbn; [reflexivity|now rewrite IH]. Qed.

Lemma hex_digit_not_space c : is_hex_digit c = true -> is_space c = false.
Proof. destruct c as [[] [] [] [] [] [] [] []]; vm_compute; congruence. Qed.

Lemma fromhex_hex_digits n : forall s,
  String.length s = (2 * n)%nat ->
  forallb is_hex_digit (list_ascii_of_string s) = true ->
  fromhex s = Some (lower s).
Proof.
  induction n as [|n IH]; intros s Hlen Hhex.
  - destruct s; [reflexivity|discriminate].
  - destruct s as [|c [|d s]]; cbn [String.length] in Hlen; try lia.
    cbn [list_ascii_of_string forallb] in Hhex.
    apply andb_prop in Hhex as [Hc Hhex].
    apply andb_prop in Hhex as [Hd Hhex].
    cbn [fromhex lower]. rewrite (hex_digit_not_space c Hc), Hc, Hd.
    cbn [andb]. rewrite (IH s); [reflexivity|lia|exact Hhex].
Qed.

(** A text of 24 hexadecimal digits is read as the identifier that prints
    as that text in lower case, and reading the print gives the same
    identifier again. *)
Lemma ObjectId_of_hex_digits value :
  String.length value = 24%nat ->
  forallb is_hex_digit (list_ascii_of_string value) = true ->
  ObjectId_of_str value = Some (mkObjectId (lower value))
  /\ canonical (mkObjectId (lower value)).
Proof.
  intros Hlen Hhex.
  assert (Hread : forall v, String.length v = 24%nat ->
            forallb is_hex_digit (list_ascii_of_string v) = true ->
            ObjectId_of_str v = Some (mkObjectId (lower v))).
  { intros v Hl Hh. unfold ObjectId_of_str. rewrite Hl. cbn [Nat.eqb].
    change ((24 =? 24)%nat) with true. cbn iota.
    now rewrite (fromhex_hex_digits 12 v Hl Hh). }
  split; [exact (Hread value Hlen Hhex)|].
  unfold canonical. cbn [str_ObjectId hex].
  rewrite (Hread (lower value)).
  - now rewrite lower_idem.
  - now rewrite length_lower.
  - clear Hread Hlen. induction value as [|c v IH]; cbn in *; [reflexivity|].
    apply andb_prop in Hhex as [Hc Hv].
    now rewrite is_hex_digit_lower, Hc, IH.
Qed.

(** Whitespace between the bytes is skipped, so a text of 24 characters can
    be read as an identifier of fewer than 12 bytes; a text of another
    length, or with another character, is refused. *)
Example ObjectId_of_str_samples :
  ObjectId_of_str "65F1C0DE00000000000000A1" = Some Sample.asha_id
  /\ ObjectId_of_str "65f1c0de 00000000 0000a1"
     = Some (mkObjectId "65f1c0de000000000000a1")
  /\ ObjectId_of_str "65f1c0de00000000000000a" = None
  /\ ObjectId_of_str "65f1c0de00000000000000g1" = None
  /\ ObjectId_of_str "6 5f1c0de0000000000000a1" = None.
Proof. repeat split. Qed.







(** ** Login *)

(** X5. Login fails in one way only: with an unknown email, with a user
    that has no credential, or with a digest that differs from the stored
    one, the answer is the same 400 "Invalid email or password", and
    nothing is written. *)
Theorem login_failures_alike `{Runtime} w payload :
  (forall u c,
     user_by_email w (LoginRequest.email payload) = Some u ->
     credential_of w (_id u) = Some c ->
     get (fields c) "password_hash" VNone
     <> VStr (hash_password (LoginRequest.password payload))) ->
  login payload w = (Raise (HTTPException 400 "Invalid email or password"), w).
Proof.
  intros Hbad. unfold login. run.
  fold (user_by_email w (LoginRequest.email payload)).
  destruct (user_by_email w (LoginRequest.email payload)) as [u|] eqn:Eu;
    [|reflexivity].
  run. fold (credential_of w (_id u)).
  destruct (credential_of w (_id u)) as [c|] eqn:Ec; [|reflexivity].
  rewrite bool_decide_eq_false_2 by exact (Hbad u c eq_refl Ec).
  reflexivity.
Qed.

Lemma login_failures_alike_witness :
  let w := Sample.world VNone 0 in
  let payload := LoginRequest.mk "asha@example.com" "guess" in
  (forall u c,
     user_by_email w (LoginRequest.email payload) = Some u ->
     credential_of w (_id u) = Some c ->
     get (fields c) "password_hash" VNone
     <> VStr (@hash_password Sample.runtime (LoginRequest.password payload)))
  /\ @login Sample.runtime payload w
     = (Raise (HTTPException 400 "Invalid email or password"), w).
Proof.
  intros w payload.
  assert (H1 : forall u c,
     user_by_email w (LoginRequest.email payload) = Some u ->
     credential_of w (_id u) = Some c ->
     get (fields c) "password_hash" VNone
     <> VStr (@hash_password Sample.runtime (LoginRequest.password payload))).
  { intros u c _ Ec. discriminate Ec. }
  split; [exact H1|].
  exact (@login_failures_alike Sample.runtime w payload H1).
Defined.

Lemma find_app_Some {A} (f : A -> bool) l l' x :
  List.find f l = Some x -> List.find f (l ++ l')%list = Some x.
Proof.
  induction l as [|a l IH]; cbn; [discriminate|].
  destruct (f a); [trivial|exact IH].
Qed.

Lemma login_success `{Runtime} w payload u c :
  user_by_email w (LoginRequest.email payload) = Some u ->
  credential_of w (_id u) = Some c ->
  get (fields c) "password_hash" VNone
  = VStr (hash_password (LoginRequest.password payload)) ->
  let out := login payload w in
  let token := uuids w 0%nat in
  out.1 = Return (LoginResponse.mk token (str_ObjectId (_id u)))
  /\ collection out.2 "auth_token"
     = (collection w "auth_token"
        ++ [mkDocument (object_ids w 0%nat) (
              <["user_id" := VOid (_id u)]> (
              <["token" := VStr token]> (
              <["created_at" := VDate (milliseconds (clock w 0%nat))]> (
              <["expires_at" := VDate (milliseconds (clock w 1%nat + seven_days))]> ∅))))])%list
  /\ collection out.2 "user" = collection w "user"
  /\ collection out.2 "credential" = collection w "credential"
  /\ (forall t d, token_record w t = Some d -> token_record out.2 t = Some d).
Proof.
  intros Hu Hc Hhash. cbn zeta.
  destruct (login payload w) as [r W] eqn:E. cbn [fst snd].
  unfold login in E. rewrite bind_find_one in E.
  fold (user_by_email w (LoginRequest.email payload)) in E. rewrite Hu in E.
  rewrite bind_find_one in E. fold (credential_of w (_id u)) in E.
  rewrite Hc in E.
  rewrite bool_decide_eq_true_2 in E by exact Hhash. cbn [negb] in E.
  repeat (first [rewrite bind_insert_one in E
                |rewrite bind_datetime_now in E
                |rewrite bind_generate_token in E];
          cbn [db clock object_ids uuids] in E).
  store_in E.
  unfold ret in E. injection E as <- <-.
  assert (Htok : forall clk ids uu docs,
            collection (mkWorld (<["auth_token" := docs]> (db w)) clk ids uu)
              "auth_token" = docs).
  { intros. unfold collection. cbn [db]. now rewrite lookup_insert_eq. }
  split; [reflexivity|]. split; [apply Htok|].
  split; [unfold collection; cbn [db];
          now rewrite lookup_insert_ne by discriminate|].
  split; [unfold collection; cbn [db];
          now rewrite lookup_insert_ne by discriminate|].
  intros t d Ht. unfold token_record. rewrite Htok.
  now apply find_app_Some.
Qed.


(** ** From signup to login and to the token *)

Lemma find_app_new {A} (f : A -> bool) l x :
  (forall a, In a l -> f a = false) -> f x = true ->
  List.find f (l ++ [x])%list = Some x.
Proof.
  intros Hl Hx. induction l as [|a l IH]; cbn.
  - now rewrite Hx.
  - rewrite (Hl a) by now left. apply IH. intros b Hb. apply Hl. now right.
Qed.

Lemma matches_field_false key v (d : Document) :
  String.eqb key "_id" = false -> v <> VNone ->
  fields d !! key <> Some v -> matches key v d = false.
Proof.
  intros Hk Hv Hne. unfold matches. rewrite Hk.
  destruct (fields d !! key) as [x|].
  - apply bool_decide_eq_false_2. congruence.
  - now apply bool_decide_eq_false_2.
Qed.

Lemma matches_field_true key v (d : Document) :
  String.eqb key "_id" = false ->
  fields d !! key = Some v -> matches key v d = true.
Proof.
  intros Hk Hf. unfold matches. rewrite Hk, Hf.
  now apply bool_decide_eq_true_2.
Qed.

(** The world a successful signup leaves. *)
Lemma signup_world `{Runtime} w payload :
  (forall u, In u (collection w "user") ->
             fields u !! "email" <> Some (VStr (SignupRequest.email payload))) ->
  (forall a, SignupRequest.age payload = Some a -> 0 <= a <= 120) ->
  exists W,
    signup payload w
    = (Return (SignupResponse.mk (uuids w 0%nat)
                 (str_ObjectId (object_ids w 0%nat))), W)
    /\ collection W "user"
       = (collection w "user"
          ++ [mkDocument (object_ids w 0%nat)
                (User.model_dump
                   (User.mk (SignupRequest.name payload)
                      (SignupRequest.email payload)
                      (SignupRequest.purpose payload)
                      (SignupRequest.age payload) 0 0 0 3 0))])%list
    /\ collection W "credential"
       = (collection w "credential"
          ++ [mkDocument (object_ids w 1%nat) (
                <["user_id" := VOid (object_ids w 0%nat)]> (
                <["password_hash" :=
                    VStr (hash_password (SignupRequest.password payload))]> (
                <["created_at" := VDate (milliseconds (clock w 0%nat))]> ∅)))])%list
    /\ collection W "auth_token"
       = (collection w "auth_token"
          ++ [mkDocument (object_ids w 2%nat) (
                <["user_id" := VOid (object_ids w 0%nat)]> (
                <["token" := VStr (uuids w 0%nat)]> (
                <["created_at" := VDate (milliseconds (clock w 1%nat))]> (
                <["expires_at" :=
                    VDate (milliseconds (clock w 2%nat + seven_days))]> ∅))))])%list
    /\ (forall n, clock W n = clock w (3 + n)%nat)
    /\ (forall n, object_ids W n = object_ids w (3 + n)%nat)
    /\ (forall n, uuids W n = uuids w (1 + n)%nat).
Proof.
  intros Hnew Hage.
  destruct (signup payload w) as [r W] eqn:E. exists W.
  unfold signup in E. rewrite bind_find_one in E.
  rewrite (find_matches_None "email" _ _ eq_refl) in E
    by (discriminate || exact Hnew).
  unfold User.new in E. rewrite (User_valid_signup _ _ _ _ Hage) in E.
  rewrite bind_lift_Return in E.
  repeat (first [rewrite bind_insert_one in E
                |rewrite bind_datetime_now in E
                |rewrite bind_generate_token in E];
          cbn [db clock object_ids uuids] in E).
  store_in E.
  unfold ret in E. injection E as <- <-.
  unfold collection. cbn [db clock object_ids uuids].
  split; [reflexivity|].
  split.
  { rewrite lookup_insert_ne by discriminate.
    rewrite lookup_insert_ne by discriminate.
    now rewrite lookup_insert_eq. }
  split.
  { rewrite lookup_insert_ne by discriminate.
    rewrite lookup_insert_eq.
    now rewrite lookup_insert_ne by discriminate. }
  split.
  { rewrite lookup_insert_eq.
    rewrite lookup_insert_ne by discriminate.
    now rewrite lookup_insert_ne by discriminate. }
  repeat split.
Qed.

(** X7. Signup and login round trip: once a signup has succeeded (the
    store's new identifier not being referred to by an older credential),
    a login with the same email and password succeeds for that user with a
    further token, and a login with a password of another digest is
    refused. *)
Theorem signup_then_login `{Runtime} w payload :
  (forall u, In u (collection w "user") ->
             fields u !! "email" <> Some (VStr (SignupRequest.email payload))) ->
  (forall a, SignupRequest.age payload = Some a -> 0 <= a <= 120) ->
  (forall c, In c (collection w "credential") ->
             fields c !! "user_id" <> Some (VOid (object_ids w 0%nat))) ->
  let w1 := (signup payload w).2 in
  let email := SignupRequest.email payload in
  (login (LoginRequest.mk email (SignupRequest.password payload)) w1).1
  = Return (LoginResponse.mk (uuids w 1%nat)
              (str_ObjectId (object_ids w 0%nat)))
  /\ forall password',
       hash_password password'
       <> hash_password (SignupRequest.password payload) ->
       login (LoginRequest.mk email password') w1
       = (Raise (HTTPException 400 "Invalid email or password"), w1).
Proof.
  intros Hnew Hage Hfresh. cbn zeta.
  destruct (signup_world w payload Hnew Hage)
    as (W & -> & Husers & Hcreds & _ & _ & _ & Huu).
  cbn [snd].
  set (user := mkDocument (object_ids w 0%nat)
                 (User.model_dump
                    (User.mk (SignupRequest.name payload)
                       (SignupRequest.email payload)
                       (SignupRequest.purpose payload)
                       (SignupRequest.age payload) 0 0 0 3 0))) in *.
  set (cred := mkDocument (object_ids w 1%nat) (
                 <["user_id" := VOid (object_ids w 0%nat)]> (
                 <["password_hash" :=
                     VStr (hash_password (SignupRequest.password payload))]> (
                 <["created_at" := VDate (milliseconds (clock w 0%nat))]> ∅)))) in *.
  assert (Hu : user_by_email W (SignupRequest.email payload) = Some user).
  { unfold user_by_email. rewrite Husers. apply find_app_new.
    - intros u Hin. apply matches_field_false;
        [reflexivity|discriminate|exact (Hnew u Hin)].
    - apply matches_field_true; reflexivity. }
  assert (Hc : credential_of W (_id user) = Some cred).
  { unfold credential_of. rewrite Hcreds. apply find_app_new.
    - intros c Hin. apply matches_field_false;
        [reflexivity|discriminate|exact (Hfresh c Hin)].
    - apply matches_field_true; reflexivity. }
  split.
  - pose proof (login_success W
                  (LoginRequest.mk (SignupRequest.email payload)
                     (SignupRequest.password payload))
                  user cred Hu Hc eq_refl) as (Hr & _).
    cbn zeta in Hr. rewrite Hr, (Huu 0%nat). reflexivity.
  - intros password' Hne. unfold login. run.
    cbn [LoginRequest.email LoginRequest.password].
    fold (user_by_email W (SignupRequest.email payload)). rewrite Hu. run.
    fold (credential_of W (_id user)). rewrite Hc.
    rewrite bool_decide_eq_false_2; [reflexivity|].
    change (get (fields cred) "password_hash" VNone)
      with (VStr (hash_password (SignupRequest.password payload))).
    congruence.
Qed.

Lemma signup_then_login_witness :
  let w := Sample.world VNone 0 in
  let payload :=
    SignupRequest.mk "Ravi" "ravi@example.com" "pw" Direction (Some 30) in
  let w1 := (@signup Sample.runtime payload w).2 in
  (forall u, In u (collection w "user") ->
             fields u !! "email" <> Some (VStr (SignupRequest.email payload)))
  /\ (forall a, SignupRequest.age payload = Some a -> 0 <= a <= 120)
  /\ (forall c, In c (collection w "credential") ->
                fields c !! "user_id" <> Some (VOid (object_ids w 0%nat)))
  /\ (@login Sample.runtime
        (LoginRequest.mk (SignupRequest.email payload)
           (SignupRequest.password payload)) w1).1
     = Return (LoginResponse.mk (uuids w 1%nat)
                 (str_ObjectId (object_ids w 0%nat))).
Proof.
  intros w payload w1.
  assert (H1 : forall u, In u (collection w "user") ->
                 fields u !! "email"
                 <> Some (VStr (SignupRequest.email payload))).
  { intros u [<-|[]]. discriminate. }
  assert (H2 : forall a, SignupRequest.age payload = Some a -> 0 <= a <= 120).
  { intros a E. injection E as <-. lia. }
  assert (H3 : forall c, In c (collection w "credential") ->
                 fields c !! "user_id" <> Some (VOid (object_ids w 0%nat))).
  { intros c []. }
  repeat (split; [assumption|]).
  exact (proj1 (@signup_then_login Sample.runtime w payload H1 H2 H3)).
Defined.




(** The cut shows at the boundary: a token issued at 3500 microseconds is
    stored with the expiry 3000 microseconds plus seven days, and a request
    at 3500 microseconds plus seven days, still within seven days of the
    issuing instant, is refused as expired. *)
Example signup_token_expiry_in_milliseconds :
  let clock n :=
    match n with
    | 2%nat => 3500
    | 3%nat => 3500 + seven_days
    | _ => 0
    end in
  let w :=
    mkWorld (db (Sample.world VNone 0)) clock Sample.ids
      (fun _ => "3c6e0b8a9c15224a8228b9a98ca1531d") in
  let payload :=
    SignupRequest.mk "Ravi" "ravi@example.com" "pw" Direction (Some 30) in
  let w1 := (@signup Sample.runtime payload w).2 in
  (get_current_user
     (Some "Bearer 3c6e0b8a9c15224a8228b9a98ca1531d") w1).1
  = Raise (HTTPException 401 "Token expired").
Proof. vm_compute. reflexivity. Qed.

(** ** Profile updates *)

Lemma profile_update_dict (payload : ProfileUpdate.t) (m : dict) :
  filter (fun kv : string * value => kv.2 <> VNone)
    (ProfileUpdate.model_dump payload) ∪ m
  = apply_profile payload m.
Proof.
  destruct payload as [[name|] [purpose|] [age|]];
    unfold apply_profile, with_field; cbn [ProfileUpdate.name
      ProfileUpdate.purpose ProfileUpdate.age fmap option_fmap option_map].
  - change (filter _ _)
      with (<["name" := VStr name]> (
            <["purpose" := VStr (Purpose_str purpose)]> (
            <["age" := VInt age]> (∅ : dict)))).
    now rewrite <- !insert_union_l, (left_id_L ∅ (∪)).
  - change (filter _ _)
      with (<["name" := VStr name]> (
            <["purpose" := VStr (Purpose_str purpose)]> (∅ : dict))).
    now rewrite <- !insert_union_l, (left_id_L ∅ (∪)).
  - change (filter _ _)
      with (<["name" := VStr name]> (<["age" := VInt age]> (∅ : dict))).
    now rewrite <- !insert_union_l, (left_id_L ∅ (∪)).
  - change (filter _ _) with (<["name" := VStr name]> (∅ : dict)).
    now rewrite <- !insert_union_l, (left_id_L ∅ (∪)).
  - change (filter _ _)
      with (<["purpose" := VStr (Purpose_str purpose)]> (
            <["age" := VInt age]> (∅ : dict))).
    now rewrite <- !insert_union_l, (left_id_L ∅ (∪)).
  - change (filter _ _)
      with (<["purpose" := VStr (Purpose_str purpose)]> (∅ : dict)).
    now rewrite <- !insert_union_l, (left_id_L ∅ (∪)).
  - change (filter _ _) with (<["age" := VInt age]> (∅ : dict)).
    now rewrite <- !insert_union_l, (left_id_L ∅ (∪)).
  - change (filter _ _) with (∅ : dict).
    now rewrite (left_id_L ∅ (∪)).
Qed.

Lemma profile_update_nonempty (payload : ProfileUpdate.t) :
  ProfileUpdate.name payload <> None
  \/ ProfileUpdate.purpose payload <> None
  \/ ProfileUpdate.age payload <> None ->
  filter (fun kv : string * value => kv.2 <> VNone)
    (ProfileUpdate.model_dump payload) <> ∅.
Proof.
  intros Hgiven E.
  pose proof (profile_update_dict payload ∅) as D.
  rewrite E, (left_id_L ∅ (∪)) in D.
  destruct payload as [[name|] [purpose|] [age|]];
    unfold apply_profile, with_field in D; cbn in D;
    try (symmetry in D; exact (insert_non_empty _ _ _ D)).
  cbn in Hgiven. destruct Hgiven as [G|[G|G]]; now apply G.
Qed.

Lemma bson_profile_update (payload : ProfileUpdate.t) :
  bson (filter (fun kv : string * value => kv.2 <> VNone)
          (ProfileUpdate.model_dump payload))
  = filter (fun kv : string * value => kv.2 <> VNone)
      (ProfileUpdate.model_dump payload).
Proof.
  apply bson_id. intros key x Hx.
  apply map_lookup_filter_Some in Hx as [Hx _].
  unfold ProfileUpdate.model_dump in Hx.
  repeat (apply lookup_insert_Some in Hx as [[_ <-]|[_ Hx]];
          [first [apply bson_value_optional_str
                 |apply bson_value_optional_int]|]).
  now rewrite lookup_empty in Hx.
Qed.

Lemma alter_user_collection w' f (d : gmap string (list Document)) name :
  db w' = alter f "user" d -> name <> "user" ->
  collection w' name = match d !! name with Some l => l | None => [] end.
Proof.
  intros Hdb Hne. unfold collection. rewrite Hdb.
  now rewrite lookup_alter_ne by congruence.
Qed.

(** X9. A profile update with at least one field given answers
    [{"updated": true}] and lays exactly the given fields over the caller's
    record, the age as given, unchecked; it answers true as well when no
    record has the caller's id, and it touches no other collection. *)
Theorem update_profile_applies_given_fields w payload current oid :
  ObjectId_of_str (AuthUser.id current) = Some oid ->
  ProfileUpdate.name payload <> None
  \/ ProfileUpdate.purpose payload <> None
  \/ ProfileUpdate.age payload <> None ->
  let out := update_profile payload current w in
  out.1 = Return true
  /\ user_record out.2 (VOid oid)
     = (fun u => mkDocument (_id u) (apply_profile payload (fields u)))
         <$> user_record w (VOid oid)
  /\ (forall name, name <> "user" ->
                   collection out.2 name = collection w name).
Proof.
  intros Hoid Hgiven. cbn zeta. unfold update_profile.
  rewrite bool_decide_eq_false_2 by exact (profile_update_nonempty _ Hgiven).
  rewrite (to_object_id_Some _ oid) by exact Hoid. run. settle.
  rewrite bson_profile_update.
  split; [reflexivity|]. split.
  - unfold user_record.
    erewrite collection_alter; [|reflexivity|reflexivity].
    rewrite find_update_first_id. fold (collection w "user").
    destruct (List.find (matches "_id" (VOid oid)) (collection w "user"));
      [|reflexivity].
    cbn. now rewrite profile_update_dict.
  - intros name Hne. now erewrite alter_user_collection by eauto.
Qed.

Lemma update_profile_applies_given_fields_witness :
  let w := Sample.world VNone 0 in
  let payload := ProfileUpdate.mk (Some "Asha B") None (Some 500) in
  let out := update_profile payload Sample.current w in
  ObjectId_of_str (AuthUser.id Sample.current) = Some Sample.asha_id
  /\ (ProfileUpdate.name payload <> None
      \/ ProfileUpdate.purpose payload <> None
      \/ ProfileUpdate.age payload <> None)
  /\ out.1 = Return true
  /\ user_record out.2 (VOid Sample.asha_id)
     = (fun u => mkDocument (_id u) (apply_profile payload (fields u)))
         <$> user_record w (VOid Sample.asha_id).
Proof.
  intros w payload out.
  assert (H1 : ObjectId_of_str (AuthUser.id Sample.current)
               = Some Sample.asha_id) by reflexivity.
  assert (H2 : ProfileUpdate.name payload <> None
               \/ ProfileUpdate.purpose payload <> None
               \/ ProfileUpdate.age payload <> None)
    by (left; discriminate).
  repeat (split; [assumption|]).
  pose proof (update_profile_applies_given_fields w payload Sample.current
                Sample.asha_id H1 H2) as (Hr & Hu & _).
  split; [exact Hr|exact Hu].
Defined.

(** The stored age after that update is 500, an age [User] would refuse. *)
Example update_profile_sample_age :
  let w := Sample.world VNone 0 in
  let payload := ProfileUpdate.mk (Some "Asha B") None (Some 500) in
  let out := update_profile payload Sample.current w in
  (fun u => (get (fields u) "name" VNone, get (fields u) "age" VNone,
             get (fields u) "purpose" VNone))
    <$> user_record out.2 (VOid Sample.asha_id)
  = Some (VStr "Asha B", VInt 500, VStr "Growth").
Proof. vm_compute. reflexivity. Qed.

Lemma update_first_keeps_field key v (set : dict) field
    (docs : list Document) :
  set !! field = None ->
  map (fun u => (_id u, fields u !! field)) (update_first key v set docs)
  = map (fun u => (_id u, fields u !! field)) docs.
Proof.
  intros Hset. induction docs as [|d docs IH]; [reflexivity|].
  cbn [update_first]. destruct (matches key v d); cbn [map].
  - cbn [_id fields]. now rewrite lookup_union_r.
  - now rewrite IH.
Qed.

(** X10. A profile update never touches anything but [name], [purpose] and
    [age]: whatever the payload, the caller and the outcome, every user
    record keeps its identifier and every other field (email, scores,
    session counts); and a payload with no field given is answered
    [{"updated": false}] with the world unchanged, the caller's id not even
    being read. *)
Theorem update_profile_keeps_other_fields w payload current field :
  field <> "name" -> field <> "purpose" -> field <> "age" ->
  let out := update_profile payload current w in
  map (fun u => (_id u, fields u !! field)) (collection out.2 "user")
  = map (fun u => (_id u, fields u !! field)) (collection w "user")
  /\ (ProfileUpdate.name payload = None ->
      ProfileUpdate.purpose payload = None ->
      ProfileUpdate.age payload = None ->
      out = (Return false, w)).
Proof.
  intros Hn Hp Ha. cbn zeta. split.
  - unfold update_profile.
    destruct (bool_decide _); [reflexivity|].
    destruct (ObjectId_of_str (AuthUser.id current)) as [oid|] eqn:Hoid.
    + rewrite (to_object_id_Some _ oid) by exact Hoid. run. settle.
      rewrite bson_profile_update.
      erewrite collection_alter; [|reflexivity|reflexivity].
      fold (collection w "user"). apply update_first_keeps_field.
      apply map_lookup_filter_None_2. left.
      unfold ProfileUpdate.model_dump.
      now rewrite !lookup_insert_ne by congruence.
    + rewrite to_object_id_None by exact Hoid. reflexivity.
  - destruct payload as [name purpose age]. cbn. intros -> -> ->.
    reflexivity.
Qed.

Lemma update_profile_keeps_other_fields_witness :
  let w := Sample.world VNone 0 in
  let payload := ProfileUpdate.mk (Some "Asha B") (Some Healing) (Some 32) in
  let out := update_profile payload Sample.current w in
  "tana_mind" <> "name" /\ "tana_mind" <> "purpose" /\ "tana_mind" <> "age"
  /\ map (fun u => (_id u, fields u !! "tana_mind")) (collection out.2 "user")
     = map (fun u => (_id u, fields u !! "tana_mind")) (collection w "user").
Proof.
  intros w payload out.
  assert (H1 : "tana_mind" <> "name") by discriminate.
  assert (H2 : "tana_mind" <> "purpose") by discriminate.
  assert (H3 : "tana_mind" <> "age") by discriminate.
  repeat (split; [assumption|]).
  exact (proj1 (update_profile_keeps_other_fields w payload Sample.current
                  "tana_mind" H1 H2 H3)).
Defined.

(** ** The session quota *)

(** One booking by a caller with integer counters: it is answered, it is
    created exactly below the quota, and the counters stay integers. *)
Lemma create_session_step `{Runtime} w payload current oid u used total :
  ObjectId_of_str (AuthUser.id current) = Some oid ->
  user_record w (VOid oid) = Some u ->
  counters u used total ->
  exists resp w' u',
    create_session payload current w = (Return resp, w')
    /\ is_created resp = (used <? total)
    /\ user_record w' (VOid oid) = Some u'
    /\ counters u' (if used <? total then used + 1 else used) total.
Proof.
  intros Hoid Hu (Hused & Htotal & [mind Hmind] & [money Hmoney]
                  & [meaning Hmeaning]).
  unfold create_session.
  rewrite (to_object_id_Some _ oid) by exact Hoid. run.
  fold (user_record w (VOid oid)). rewrite Hu.
  unfold counter in Hused, Htotal, Hmind, Hmoney, Hmeaning.
  rewrite Hused. run. rewrite Htotal. run.
  destruct (used <? total) eqn:Hlt.
  - assert (Hle : (total <=? used) = false)
      by (apply Z.leb_gt; now apply Z.ltb_lt).
    rewrite Hle. run. cbn [Session.topic Session.date Session.time].
    unfold pillar_of_topic.
    destruct (contains (lower (Session.topic payload)) "mind");
      [|destruct (contains (lower (Session.topic payload)) "money");
        [|destruct (contains (lower (Session.topic payload)) "meaning")]].
    all: rewrite ?bind_bind, ?Hmind, ?Hmoney, ?Hmeaning; run.
    all: rewrite ?bind_bind, (to_object_id_Some _ oid) by exact Hoid; run.
    all: store.
    all: settle.
    all: eexists _, _, _; split; [reflexivity|]; split; [reflexivity|].
    all: split;
      [erewrite user_record_after_update;
         [rewrite Hu; reflexivity|reflexivity|discriminate|discriminate]|].
    all: unfold counters, counter; cbn [fields].
    all: rewrite ?set_two_union, ?set_one_union.
    all: rewrite ?get_insert_eq, ?get_insert_ne by discriminate.
    all: rewrite ?get_insert_eq, ?get_insert_ne by discriminate.
    all: rewrite ?Hused, ?Htotal, ?Hmind, ?Hmoney, ?Hmeaning.
    all: cbn [py_int]; eauto 10.
  - assert (Hle : (total <=? used) = true)
      by (apply Z.leb_le; now apply Z.ltb_ge).
    rewrite Hle. exists (Limited "Session limit reached"), w, u.
    split; [reflexivity|]. split; [reflexivity|]. split; [exact Hu|].
    unfold counters, counter. eauto 10.
Qed.

Lemma for_each_cons {A B} (handle : A -> M B) r rs
    w answer w1 answers w2 :
  handle r w = (Return answer, w1) ->
  for_each handle rs w1 = (Return answers, w2) ->
  for_each handle (r :: rs) w = (Return (answer :: answers), w2).
Proof.
  intros H1 H2. cbn [for_each]. unfold bind. rewrite H1, H2. reflexivity.
Qed.

(** X11. The quota holds across a run of bookings: when a caller whose
    record has [sessions_used <= total_sessions] sends any number of
    booking requests one after the other, all are answered, the first
    [total_sessions - sessions_used] of them are created and all later ones
    are answered [{limited: true}], and [sessions_used] ends at the smaller
    of [total_sessions] and its old value plus the number of requests. *)
Theorem bookings_respect_quota `{Runtime} payloads :
  forall w current oid u used total,
  ObjectId_of_str (AuthUser.id current) = Some oid ->
  user_record w (VOid oid) = Some u ->
  counters u used total ->
  used <= total ->
  let n := length payloads in
  let k := Nat.min n (Z.to_nat (total - used)) in
  exists answers w' u',
    for_each (fun p => create_session p current) payloads w
    = (Return answers, w')
    /\ is_created <$> answers
       = (replicate k true ++ replicate (n - k) false)%list
    /\ user_record w' (VOid oid) = Some u'
    /\ counters u' (Z.min (used + Z.of_nat n) total) total.
Proof.
  induction payloads as [|p payloads IH];
    intros w current oid u used total Hoid Hu Hc Hle; cbn zeta.
  - exists [], w, u. cbn [length].
    split; [reflexivity|]. split; [reflexivity|]. split; [exact Hu|].
    replace (Z.min (used + Z.of_nat 0) total) with used by lia. exact Hc.
  - destruct (create_session_step w p current oid u used total Hoid Hu Hc)
      as (resp & w1 & u1 & Hrun & Hresp & Hu1 & Hc1).
    destruct (used <? total) eqn:Hlt.
    + apply Z.ltb_lt in Hlt.
      destruct (IH w1 current oid u1 (used + 1) total Hoid Hu1 Hc1
                  ltac:(lia)) as (answers & w2 & u2 & Hrest & Hshape & Hu2 & Hc2).
      cbn zeta in Hshape, Hc2.
      exists (resp :: answers), w2, u2.
      split; [exact (for_each_cons (fun p => create_session p current)
                      p payloads w resp w1 answers w2 Hrun Hrest)|].
      split; [|split; [exact Hu2|]].
      * cbn [fmap list_fmap length]. rewrite Hresp.
        replace (Z.to_nat (total - used))
          with (S (Z.to_nat (total - (used + 1)))) by lia.
        cbn [Nat.min Nat.sub replicate]. cbn [app]. f_equal. exact Hshape.
      * cbn [length].
        replace (Z.min (used + Z.of_nat (S (length payloads))) total)
          with (Z.min (used + 1 + Z.of_nat (length payloads)) total) by lia.
        exact Hc2.
    + apply Z.ltb_ge in Hlt. assert (used = total) by lia. subst used.
      destruct (IH w1 current oid u1 total total Hoid Hu1 Hc1 ltac:(lia))
        as (answers & w2 & u2 & Hrest & Hshape & Hu2 & Hc2).
      cbn zeta in Hshape, Hc2.
      exists (resp :: answers), w2, u2.
      split; [exact (for_each_cons (fun p => create_session p current)
                      p payloads w resp w1 answers w2 Hrun Hrest)|].
      split; [|split; [exact Hu2|]].
      * cbn [fmap list_fmap length]. rewrite Hresp.
        replace (Z.to_nat (total - total)) with 0%nat in * by lia.
        rewrite Nat.min_0_r in *. cbn [replicate app] in *.
        rewrite Nat.sub_0_r in Hshape. cbn [Nat.sub replicate].
        f_equal. exact Hshape.
      * cbn [length].
        replace (Z.min (total + Z.of_nat (S (length payloads))) total)
          with (Z.min (total + Z.of_nat (length payloads)) total) by lia.
        exact Hc2.
Qed.

Lemma bookings_respect_quota_witness :
  let w := Sample.world VNone 42 in
  let book topic :=
    Session.mk "" topic "2025-01-10" "10:00" None None requested in
  let payloads := [book "Mind"; book "Money"; book "Meaning"; book "More"] in
  ObjectId_of_str (AuthUser.id Sample.current) = Some Sample.asha_id
  /\ user_record w (VOid Sample.asha_id) = Some Sample.asha
  /\ @counters Sample.runtime Sample.asha 1 3
  /\ 1 <= 3
  /\ exists answers w' u',
       for_each (fun p => @create_session Sample.runtime p Sample.current)
         payloads w = (Return answers, w')
       /\ is_created <$> answers = [true; true; false; false]
       /\ user_record w' (VOid Sample.asha_id) = Some u'
       /\ @counters Sample.runtime u' 3 3.
Proof.
  intros w book payloads.
  assert (H1 : ObjectId_of_str (AuthUser.id Sample.current)
               = Some Sample.asha_id) by reflexivity.
  assert (H2 : user_record w (VOid Sample.asha_id) = Some Sample.asha)
    by reflexivity.
  assert (H3 : @counters Sample.runtime Sample.asha 1 3).
  { split; [reflexivity|]. split; [reflexivity|].
    split; [exists 1; reflexivity|]. split; [exists 1; reflexivity|].
    exists 2; reflexivity. }
  assert (H4 : 1 <= 3) by discriminate.
  repeat (split; [assumption|]).
  exact (@bookings_respect_quota Sample.runtime payloads w Sample.current
           Sample.asha_id Sample.asha 1 3 H1 H2 H3 H4).
Defined.

(** X12. The three refusals of a booking write nothing: a caller id that is
    no identifier is answered 400 "Invalid ID format", a caller without a
    user record 404 "User not found", and a caller at or beyond the quota
    [{limited: true}] (also when [sessions_used] exceeds [total_sessions]);
    in each case the world is left exactly as it was. *)
Theorem create_session_refusals_write_nothing `{Runtime} w payload current :
  (ObjectId_of_str (AuthUser.id current) = None ->
   create_session payload current w
   = (Raise (HTTPException 400 "Invalid ID format"), w))
  /\ (forall oid,
        ObjectId_of_str (AuthUser.id current) = Some oid ->
        user_record w (VOid oid) = None ->
        create_session payload current w
        = (Raise (HTTPException 404 "User not found"), w))
  /\ (forall oid u used total,
        ObjectId_of_str (AuthUser.id current) = Some oid ->
        user_record w (VOid oid) = Some u ->
        counter u "sessions_used" 0 = Return used ->
        counter u "total_sessions" 3 = Return total ->
        total <= used ->
        create_session payload current w
        = (Return (Limited "Session limit reached"), w)).
Proof.
  split; [|split].
  - intros Hoid. unfold create_session.
    now rewrite to_object_id_None by exact Hoid.
  - intros oid Hoid Hu. unfold create_session.
    rewrite (to_object_id_Some _ oid) by exact Hoid. run.
    fold (user_record w (VOid oid)). now rewrite Hu.
  - intros oid u used total Hoid Hu Hused Htotal Hle. unfold create_session.
    rewrite (to_object_id_Some _ oid) by exact Hoid. run.
    fold (user_record w (VOid oid)). rewrite Hu.
    unfold counter in Hused, Htotal. rewrite Hused. run. rewrite Htotal. run.
    apply Z.leb_le in Hle. now rewrite Hle.
Qed.

(** X13. A booking is not undone when the raise of the score fails: if the
    score field chosen by the topic does not convert to an integer, the
    request ends in that exception after the Session has been inserted,
    with [sessions_used] and every user record as before. *)
Theorem create_session_failed_score_keeps_session `{Runtime}
    w payload current oid u used total field e :
  ObjectId_of_str (AuthUser.id current) = Some oid ->
  user_record w (VOid oid) = Some u ->
  counter u "sessions_used" 0 = Return used ->
  counter u "total_sessions" 3 = Return total ->
  used < total ->
  pillar_of_topic (lower (Session.topic payload)) = Some field ->
  counter u field 0 = Raise e ->
  let out := create_session payload current w in
  out.1 = Raise e
  /\ collection out.2 "session"
     = (collection w "session"
        ++ [mkDocument (object_ids w 0%nat)
              (Session.model_dump
                 (Session.mk (AuthUser.id current) (Session.topic payload)
                    (Session.date payload) (Session.time payload)
                    (Session.feedback payload) (Session.spatial_url payload)
                    (Session.status payload)))])%list
  /\ collection out.2 "user" = collection w "user"
  /\ collection out.2 "email_log" = collection w "email_log".
Proof.
  intros Hoid Hu Hused Htotal Hlt Hfield Hscore. cbn zeta.
  unfold create_session.
  rewrite (to_object_id_Some _ oid) by exact Hoid. run.
  fold (user_record w (VOid oid)). rewrite Hu.
  unfold counter in Hused, Htotal, Hscore. rewrite Hused. run.
  rewrite Htotal. run.
  apply Z.leb_gt in Hlt. rewrite Hlt. run.
  cbn [Session.topic]. rewrite Hfield.
  rewrite bind_bind, Hscore. run. store. settle.
  unfold collection. cbn [db].
  split; [reflexivity|]. split; [now rewrite lookup_insert_eq|].
  split; now rewrite lookup_insert_ne by discriminate.
Qed.

Lemma create_session_failed_score_keeps_session_witness :
  let broken :=
    mkDocument Sample.asha_id
      (<["tana_mind" := VNone]> (fields Sample.asha)) in
  let w :=
    mkWorld (<["user" := [broken]]> ∅) (fun _ => 0) Sample.ids (fun _ => "") in
  let payload :=
    Session.mk "" "Mind reset" "2025-01-10" "10:00" None None requested in
  let out := @create_session Sample.runtime payload Sample.current w in
  ObjectId_of_str (AuthUser.id Sample.current) = Some Sample.asha_id
  /\ user_record w (VOid Sample.asha_id) = Some broken
  /\ @counter Sample.runtime broken "sessions_used" 0 = Return 1
  /\ @counter Sample.runtime broken "total_sessions" 3 = Return 3
  /\ 1 < 3
  /\ pillar_of_topic (lower (Session.topic payload)) = Some "tana_mind"
  /\ @counter Sample.runtime broken "tana_mind" 0 = Raise TypeError
  /\ out.1 = Raise TypeError
  /\ collection out.2 "user" = collection w "user".
Proof.
  intros broken w payload out.
  assert (H1 : ObjectId_of_str (AuthUser.id Sample.current)
               = Some Sample.asha_id) by reflexivity.
  assert (H2 : user_record w (VOid Sample.asha_id) = Some broken)
    by reflexivity.
  assert (H3 : @counter Sample.runtime broken "sessions_used" 0 = Return 1)
    by reflexivity.
  assert (H4 : @counter Sample.runtime broken "total_sessions" 3 = Return 3)
    by reflexivity.
  assert (H5 : 1 < 3) by reflexivity.
  assert (H6 : pillar_of_topic (lower (Session.topic payload))
               = Some "tana_mind") by reflexivity.
  assert (H7 : @counter Sample.runtime broken "tana_mind" 0 = Raise TypeError)
    by reflexivity.
  repeat (split; [assumption|]).
  pose proof (@create_session_failed_score_keeps_session Sample.runtime w
                payload Sample.current Sample.asha_id broken 1 3 "tana_mind"
                TypeError H1 H2 H3 H4 H5 H6 H7) as (Hr & _ & Hus & _).
  split; [exact Hr|exact Hus].
Defined.

(** ** The dashboard's edges *)

(** X14. The dashboard reads a missing field as its default: for a user
    record with no name, purpose, score or session field the answer has the
    name "", the purpose "Healing", the three scores and the three
    percentages 0, and the sessions 0 of 3. *)
Theorem dashboard_defaults_for_missing_fields `{Runtime} w current oid u :
  ObjectId_of_str (AuthUser.id current) = Some oid ->
  user_record w (VOid oid) = Some u ->
  fields u !! "name" = None -> fields u !! "purpose" = None ->
  fields u !! "tana_mind" = None -> fields u !! "tana_money" = None ->
  fields u !! "tana_meaning" = None ->
  fields u !! "sessions_used" = None -> fields u !! "total_sessions" = None ->
  dashboard current w
  = (Return (Dashboard.mk (VStr "") (VStr "Healing") 0 0 0 0 0 0 0 3), w).
Proof.
  intros Hoid Hu Hname Hpurpose Hmind Hmoney Hmeaning Hused Htotal.
  unfold dashboard.
  rewrite (to_object_id_Some _ oid) by exact Hoid. run.
  fold (user_record w (VOid oid)). rewrite Hu.
  rewrite (get_None _ _ _ Hmind), (get_None _ _ _ Hmoney),
    (get_None _ _ _ Hmeaning), (get_None _ _ _ Hused),
    (get_None _ _ _ Htotal), (get_None _ _ _ Hname),
    (get_None _ _ _ Hpurpose).
  cbn [py_int]. run.
  change (percentage 0 (Z.max (0 + 0 + 0) 1)) with (Return (A := Z) 0).
  run. reflexivity.
Qed.

Lemma dashboard_defaults_for_missing_fields_witness :
  let bare := mkDocument Sample.asha_id (<["email" := VStr "a@b.co"]> ∅) in
  let w :=
    mkWorld (<["user" := [bare]]> ∅) (fun _ => 0) Sample.ids (fun _ => "") in
  ObjectId_of_str (AuthUser.id Sample.current) = Some Sample.asha_id
  /\ user_record w (VOid Sample.asha_id) = Some bare
  /\ fields bare !! "name" = None /\ fields bare !! "purpose" = None
  /\ fields bare !! "tana_mind" = None /\ fields bare !! "tana_money" = None
  /\ fields bare !! "tana_meaning" = None
  /\ fields bare !! "sessions_used" = None
  /\ fields bare !! "total_sessions" = None
  /\ @dashboard Sample.runtime Sample.current w
     = (Return (Dashboard.mk (VStr "") (VStr "Healing") 0 0 0 0 0 0 0 3), w).
Proof.
  intros bare w.
  assert (H1 : ObjectId_of_str (AuthUser.id Sample.current)
               = Some Sample.asha_id) by reflexivity.
  assert (H2 : user_record w (VOid Sample.asha_id) = Some bare)
    by reflexivity.
  assert (H3 : fields bare !! "name" = None) by reflexivity.
  assert (H4 : fields bare !! "purpose" = None) by reflexivity.
  assert (H5 : fields bare !! "tana_mind" = None) by reflexivity.
  assert (H6 : fields bare !! "tana_money" = None) by reflexivity.
  assert (H7 : fields bare !! "tana_meaning" = None) by reflexivity.
  assert (H8 : fields bare !! "sessions_used" = None) by reflexivity.
  assert (H9 : fields bare !! "total_sessions" = None) by reflexivity.
  repeat (split; [assumption|]).
  exact (@dashboard_defaults_for_missing_fields Sample.runtime w
           Sample.current Sample.asha_id bare H1 H2 H3 H4 H5 H6 H7 H8 H9).
Defined.

(** X15. The dashboard and [me] are read-only: whatever the caller and the
    outcome (an answer, 400, 404 or an exception while converting a field),
    the world after the request is the world before it. *)
Theorem dashboard_and_me_never_write `{Runtime} w current :
  (dashboard current w).2 = w /\ (me current w).2 = w.
Proof.
  split.
  - destruct (dashboard current w) as [r w'] eqn:E. cbn [snd].
    unfold dashboard in E.
    destruct (ObjectId_of_str (AuthUser.id current)) as [oid|] eqn:Hoid.
    2: { rewrite to_object_id_None in E by exact Hoid. now injection E. }
    rewrite (to_object_id_Some _ oid) in E by exact Hoid.
    rewrite bind_find_one in E.
    destruct (List.find _ _) as [u|]; [|now injection E].
    repeat match type of E with
           | bind (lift ?x) _ _ = _ =>
               destruct x;
               [rewrite bind_lift_Return in E
               |rewrite bind_lift_Raise in E; now injection E]
           end.
    now injection E.
  - destruct (me current w) as [r w'] eqn:E. cbn [snd].
    unfold me in E.
    destruct (ObjectId_of_str (AuthUser.id current)) as [oid|] eqn:Hoid.
    2: { rewrite to_object_id_None in E by exact Hoid. now injection E. }
    rewrite (to_object_id_Some _ oid) in E by exact Hoid.
    rewrite bind_find_one in E.
    destruct (List.find _ _) as [u|]; now injection E.
Qed.

(** ** The accuracy of the percentages

    The dashboard computes a percentage with two roundings to binary64 (the
    quotient, then the product with 100.0) and a final rounding to an
    integer. The lemmas below bound the three errors in integer arithmetic. *)

Lemma Zdigits2_ge m : 0 < m -> 2 ^ (Zdigits2 m - 1) <= m.
Proof.
  destruct m as [|p|p]; intros Hm; try lia. apply Zdigits2_pos_bounds.
Qed.

Lemma Zdigits2_eq m k : 0 < k -> 2 ^ (k - 1) <= m < 2 ^ k -> Zdigits2 m = k.
Proof.
  intros Hk [Hlo Hhi].
  assert (Hm : 0 < m).
  { assert (0 < 2 ^ (k - 1)) by (apply Z.pow_pos_nonneg; lia). lia. }
  pose proof (Zdigits2_le m k ltac:(lia) ltac:(lia) Hhi) as Hle.
  pose proof (Zdigits2_ge m Hm) as Hge.
  destruct (Z_lt_le_dec (Zdigits2 m) k) as [Hlt|]; [|lia].
  exfalso.
  assert (2 ^ Zdigits2 m <= 2 ^ (k - 1)) by (apply Z.pow_le_mono_r; lia).
  pose proof (Zdigits2_lt m ltac:(lia)). lia.
Qed.

Lemma shr_fexp_exact m e l mrs e' :
  0 <= m ->
  shr_fexp 53 1024 m e l = (mrs, e') ->
  let n := Z.max 0 (fexp 53 1024 (Zdigits2 m + e) - e) in
  shr_m mrs = m / 2 ^ n /\ e' = e + n.
Proof.
  intros Hm. unfold shr_fexp, shr. cbn zeta.
  destruct (fexp 53 1024 (Zdigits2 m + e) - e) as [|p|p] eqn:En;
    intros E; injection E as <- <-.
  - rewrite shr_m_of_loc. cbn. rewrite Z.div_1_r. lia.
  - rewrite shr_m_iter by (rewrite shr_m_of_loc; lia).
    rewrite shr_m_of_loc. replace (Z.max 0 (Z.pos p)) with (Z.pos p) by lia.
    split; reflexivity.
  - rewrite shr_m_of_loc. replace (Z.max 0 (Z.neg p)) with 0 by lia.
    cbn. rewrite Z.div_1_r. lia.
Qed.

(** Rounding an operand of at least 53 digits in the normal range: the
    result is finite, its value is within one unit in the last place of the
    operand. *)
Lemma binary_round_aux_normal s mx ex l :
  2 ^ 52 <= mx ->
  let n := Zdigits2 mx - 53 in
  -1074 <= ex + n -> ex + n + 1 <= 971 ->
  exists M g,
    binary_round_aux 53 1024 s mx ex l = S754_finite s M (ex + n + g)
    /\ (g = 0 \/ g = 1)
    /\ Z.pos M < 2 ^ 53
    /\ mx - 2 ^ n < Z.pos M * 2 ^ g * 2 ^ n <= mx + 2 ^ n.
Proof.
  intros Hmx n Hlo Hhi.
  assert (Hmx0 : 0 < mx) by lia.
  pose proof (Zdigits2_ge mx Hmx0) as Hdlo.
  pose proof (Zdigits2_lt mx ltac:(lia)) as Hdhi.
  assert (Hn : 0 <= n).
  { unfold n. destruct (Z_lt_le_dec (Zdigits2 mx) 53) as [Hlt|]; [|lia].
    exfalso.
    assert (2 ^ Zdigits2 mx <= 2 ^ 52) by (apply Z.pow_le_mono_r; lia).
    lia. }
  assert (H2n : 0 < 2 ^ n) by (apply Z.pow_pos_nonneg; lia).
  unfold binary_round_aux.
  destruct (shr_fexp 53 1024 mx ex l) as [mrs1 e1] eqn:E1.
  assert (Hmx00 : 0 <= mx) by lia.
  destruct (shr_fexp_exact mx ex l mrs1 e1 Hmx00 E1) as [Hm1 He1].
  rewrite fexp_eq in Hm1, He1.
  replace (Z.max 0 (Z.max (Zdigits2 mx + ex - 53) (-1074) - ex)) with n
    in Hm1, He1 by (unfold n in *; lia).
  set (ma := shr_m mrs1) in *.
  assert (Hdiv : ma * 2 ^ n <= mx < (ma + 1) * 2 ^ n).
  { rewrite Hm1. pose proof (Z.div_mod mx (2 ^ n) ltac:(lia)) as Hdm.
    pose proof (Z.mod_pos_bound mx (2 ^ n) H2n). nia. }
  assert (Hma : 2 ^ 52 <= ma < 2 ^ 53).
  { assert (Hpow : 2 ^ (Zdigits2 mx - 1) = 2 ^ 52 * 2 ^ n).
    { rewrite <- Z.pow_add_r by lia. f_equal. unfold n. lia. }
    assert (Hpow' : 2 ^ Zdigits2 mx = 2 ^ 53 * 2 ^ n).
    { rewrite <- Z.pow_add_r by lia. f_equal. unfold n. lia. }
    split.
    - rewrite Hm1. apply Z.div_le_lower_bound; [lia|]. lia.
    - rewrite Hm1. apply Z.div_lt_upper_bound; [lia|]. lia. }
  pose proof (round_nearest_even_bounds ma (loc_of_shr_record mrs1))
    as [Hr1 Hr2].
  set (m1 := round_nearest_even ma (loc_of_shr_record mrs1)) in *.
  destruct (shr_fexp 53 1024 m1 e1 loc_Exact) as [mrs2 e2] eqn:E2.
  assert (Hm10 : 0 <= m1) by lia.
  destruct (shr_fexp_exact m1 e1 loc_Exact mrs2 e2 Hm10 E2) as [Hm2 He2].
  rewrite fexp_eq in Hm2, He2.
  destruct (Z_lt_le_dec m1 (2 ^ 53)) as [Hlt|Hge].
  - assert (Hd1 : Zdigits2 m1 = 53)
      by (apply Zdigits2_eq; [lia|]; change (2 ^ (53 - 1)) with (2 ^ 52); lia).
    rewrite Hd1 in Hm2, He2.
    replace (Z.max 0 (Z.max (53 + e1 - 53) (-1074) - e1)) with 0
      in Hm2, He2 by lia.
    change (2 ^ 0) with 1 in Hm2. rewrite Z.div_1_r in Hm2.
    destruct (shr_m mrs2) as [|M|M] eqn:EM; try lia.
    exists M, 0.
    replace (e2 <=? 1024 - 53) with true by (symmetry; apply Z.leb_le; lia).
    replace e2 with (ex + n + 0) by lia.
    split; [reflexivity|]. split; [now left|]. split; [lia|].
    change (2 ^ 0) with 1. nia.
  - assert (Hm1eq : m1 = 2 ^ 53) by lia.
    assert (Hd1 : Zdigits2 m1 = 54).
    { apply Zdigits2_eq; [lia|]. rewrite Hm1eq. cbn. lia. }
    rewrite Hd1 in Hm2, He2.
    replace (Z.max 0 (Z.max (54 + e1 - 53) (-1074) - e1)) with 1
      in Hm2, He2 by lia.
    rewrite Hm1eq in Hm2. change (2 ^ 53 / 2 ^ 1) with (2 ^ 52) in Hm2.
    destruct (shr_m mrs2) as [|M|M] eqn:EM; try (cbn in Hm2; lia).
    exists M, 1.
    replace (e2 <=? 1024 - 53) with true by (symmetry; apply Z.leb_le; lia).
    replace e2 with (ex + n + 1) by lia.
    split; [reflexivity|]. split; [now right|].
    split; [rewrite Hm2; cbn; lia|].
    change (2 ^ 1) with 2. rewrite Hm2.
    change (2 ^ 52 * 2) with (2 ^ 53). rewrite <- Hm1eq. nia.
Qed.

Lemma half_even_bound m k :
  0 <= k ->
  - 2 ^ k <= 2 * (Float.half_even m k * 2 ^ k - m) <= 2 ^ k.
Proof.
  intros Hk. unfold Float.half_even. cbn zeta.
  assert (Hd : 0 < 2 ^ k) by (apply Z.pow_pos_nonneg; lia).
  pose proof (Z.div_mod m (2 ^ k) ltac:(lia)) as Hdm.
  pose proof (Z.mod_pos_bound m (2 ^ k) Hd) as Hr.
  set (q := m / 2 ^ k) in *. set (r := m mod 2 ^ k) in *.
  set (d := 2 ^ k) in *. clearbody q r d.
  destruct (2 * r ?= d) eqn:E.
  - apply Z.compare_eq in E. destruct (Z.even q); nia.
  - rewrite Z.compare_lt_iff in E. nia.
  - rewrite Z.compare_gt_iff in E. nia.
Qed.

Lemma div_error_bound m t q r A G N M :
  0 < t ->
  m * (A * (G * N)) = t * q + r -> 0 <= r < t ->
  q - N < M * G * N <= q + N ->
  N = 1 \/ N = 2 -> G = 1 \/ G = 2 ->
  - (2 * t) <= M * t - m * A <= 2 * t.
Proof.
  intros Ht Hdm Hr Hval HN HG.
  assert (H1 : (q - N) * t < M * G * N * t) by (apply Z.mul_lt_mono_pos_r; lia).
  assert (H2 : M * G * N * t <= (q + N) * t)
    by (apply Z.mul_le_mono_nonneg_r; lia).
  destruct HN as [-> | ->], HG as [-> | ->]; lia.
Qed.

(** The quotient of two integers below [2^40], as a float: the mantissa
    [M] at exponent [-a] is within two units of the exact quotient scaled by
    [2^a]. *)
Lemma SFdiv_exact_value pm pt :
  Z.pos pm < 2 ^ 40 -> Z.pos pt < 2 ^ 40 ->
  exists M a,
    SFdiv 53 1024 (S754_finite false pm 0) (S754_finite false pt 0)
    = S754_finite false M (- a)
    /\ 12 <= a <= 93
    /\ Z.pos M < 2 ^ 53
    /\ 2048 * Z.pos pt <= 2 ^ a
    /\ - (2 * Z.pos pt) <= Z.pos M * Z.pos pt - Z.pos pm * 2 ^ a
       <= 2 * Z.pos pt.
Proof.
  intros Hm Ht. unfold SFdiv, SFdiv_core_binary.
  set (m := Z.pos pm) in *. set (t := Z.pos pt) in *.
  assert (Hm0 : 0 < m) by (unfold m; lia).
  assert (Ht0 : 0 < t) by (unfold t; lia).
  set (d1 := Zdigits2 m). set (d2 := Zdigits2 t).
  pose proof (Zdigits2_ge m Hm0) as Hd1lo. fold d1 in Hd1lo.
  pose proof (Zdigits2_lt m ltac:(lia)) as Hd1hi. fold d1 in Hd1hi.
  pose proof (Zdigits2_ge t Ht0) as Hd2lo. fold d2 in Hd2lo.
  pose proof (Zdigits2_lt t ltac:(lia)) as Hd2hi. fold d2 in Hd2hi.
  assert (Hd1 : 1 <= d1 <= 40).
  { split; [|apply Zdigits2_le; lia].
    unfold d1, m. cbn. lia. }
  assert (Hd2 : 1 <= d2 <= 40).
  { split; [|apply Zdigits2_le; lia].
    unfold d2, t. cbn. lia. }
  rewrite fexp_eq.
  replace (Z.min (Z.max (d1 + 0 - (d2 + 0) - 53) (-1074)) (0 - 0))
    with (d1 - d2 - 53) by lia.
  set (s := 53 + d2 - d1).
  replace (0 - 0 - (d1 - d2 - 53)) with s by (unfold s; lia).
  assert (Hs : 0 < s) by (unfold s; lia).
  destruct s as [|ps|ps] eqn:Es; try lia. rewrite <- Es in *.
  rewrite Z.shiftl_mul_pow2 by lia.
  destruct (Z.div_eucl (m * 2 ^ s) t) as [q r] eqn:Eq.
  assert (Hq : q = (m * 2 ^ s) / t) by (unfold Z.div; now rewrite Eq).
  assert (H2s : 0 < 2 ^ s) by (apply Z.pow_pos_nonneg; lia).
  pose proof (Z.div_mod (m * 2 ^ s) t ltac:(lia)) as Hdm.
  pose proof (Z.mod_pos_bound (m * 2 ^ s) t Ht0) as Hmod.
  rewrite <- Hq in Hdm.
  set (r' := (m * 2 ^ s) mod t) in *. clearbody r'.
  assert (Hp1 : 2 ^ (d1 - 1) * 2 ^ s = 2 ^ 52 * 2 ^ d2).
  { rewrite <- !Z.pow_add_r by lia. f_equal. unfold s. lia. }
  assert (Hp2 : 2 ^ d1 * 2 ^ s = 2 ^ 54 * 2 ^ (d2 - 1)).
  { rewrite <- !Z.pow_add_r by lia. f_equal. unfold s. lia. }
  assert (H2d2 : 0 < 2 ^ (d2 - 1)) by (apply Z.pow_pos_nonneg; lia).
  assert (H2d2' : 2 ^ d2 = 2 * 2 ^ (d2 - 1)).
  { replace d2 with (1 + (d2 - 1)) at 1 by lia.
    rewrite Z.pow_add_r by lia. reflexivity. }
  assert (Hqlo : 2 ^ 52 <= q).
  { rewrite Hq. apply Z.div_le_lower_bound; [lia|]. nia. }
  assert (Hqhi : q < 2 ^ 54).
  { rewrite Hq. apply Z.div_lt_upper_bound; [lia|]. nia. }
  pose proof (Zdigits2_ge q ltac:(lia)) as Hdqlo.
  pose proof (Zdigits2_le q 54 ltac:(lia) ltac:(lia) Hqhi) as Hdqhi.
  assert (Hdq : 53 <= Zdigits2 q).
  { destruct (Z_lt_le_dec (Zdigits2 q) 53) as [Hlt|]; [|lia].
    exfalso. pose proof (Zdigits2_lt q ltac:(lia)) as Hlt'.
    assert (2 ^ Zdigits2 q <= 2 ^ 52) by (apply Z.pow_le_mono_r; lia).
    lia. }
  match goal with
  | |- context [binary_round_aux _ _ _ _ _ ?l] =>
      destruct (binary_round_aux_normal (xorb false false) q (d1 - d2 - 53)
                  l Hqlo ltac:(lia) ltac:(lia))
        as (M & g & EM & Hg & HM & Hval)
  end.
  set (n := Zdigits2 q - 53) in *.
  exists M, (s - n - g).
  replace (- (s - n - g)) with (d1 - d2 - 53 + n + g) by (unfold s; lia).
  split; [exact EM|].
  assert (Hn : n = 0 \/ n = 1) by lia.
  split; [unfold s; lia|]. split; [exact HM|].
  assert (Hpow : 2 ^ s = 2 ^ (s - n - g) * (2 ^ g * 2 ^ n)).
  { rewrite <- !Z.pow_add_r by lia. f_equal. lia. }
  assert (Ha : 0 < 2 ^ (s - n - g)) by (apply Z.pow_pos_nonneg; lia).
  split.
  - assert (2 ^ (d2 + 11) <= 2 ^ (s - n - g))
      by (apply Z.pow_le_mono_r; unfold s; lia).
    rewrite Z.pow_add_r in H by lia. change (2 ^ 11) with 2048 in H. lia.
  - rewrite Hpow in Hdm.
    apply (div_error_bound m t q r' _ (2 ^ g) (2 ^ n));
      try assumption.
    + destruct Hn as [-> | ->]; [now left | now right].
    + destruct Hg as [-> | ->]; [now left | now right].
Qed.

(** The three rounding errors of a percentage, put together: the quotient
    is off by at most two units of its last place, the product by one, the
    final rounding by half a unit of the result. *)
Lemma percentage_error_bound m t M1 A M2 K G N p :
  0 < t -> 0 < K -> 1 <= N <= 2 ^ 53 -> G = 1 \/ G = 2 ->
  2048 * t <= A ->
  - (2 * t) <= M1 * t - m * A <= 2 * t ->
  M1 * 7036874417766400 - N < M2 * G * N <= M1 * 7036874417766400 + N ->
  K * G * N = A * 2 ^ 46 ->
  - K <= 2 * (p * K - M2) <= K ->
  - t <= 2 * (p * t - 100 * m) <= t.
Proof.
  intros Ht HK HN HG HA H1 H2 HW H3.
  change (2 ^ 46) with 70368744177664 in HW.
  change (2 ^ 53) with 9007199254740992 in HN.
  set (r1 := M1 * t - m * A) in *.
  set (r2 := M2 * G * N - M1 * 7036874417766400).
  set (r3 := 2 * (p * K - M2)) in *.
  set (W := K * G * N) in *.
  assert (HG0 : 1 <= G <= 2) by lia.
  assert (HGN : 0 < G * N) by nia.
  assert (HW0 : 0 < W) by (unfold W; nia).
  assert (E : 2 * (p * t - 100 * m) * W
              = 2 * 7036874417766400 * r1 + 2 * t * r2 + r3 * (G * N) * t
                + 200 * m * (A * 70368744177664 - W)).
  { unfold r1, r2, r3, W. ring. }
  rewrite HW in E. replace (A * 70368744177664 - A * 70368744177664) with 0
    in E by lia.
  rewrite <- HW in E.
  assert (B2 : - (t * N) <= t * r2 <= t * N) by (unfold r2; nia).
  assert (B3 : - (W * t) <= r3 * (G * N) * t <= W * t).
  { assert (B : - (K * (G * N)) <= r3 * (G * N) <= K * (G * N)) by nia.
    replace (W * t) with (K * (G * N) * t) by (unfold W; ring).
    nia. }
  assert (BN : t * N <= t * 9007199254740992) by nia.
  set (I := 2 * (p * t - 100 * m)) in *.
  assert (BI : - (W * (t + 1)) < I * W < W * (t + 1)) by lia.
  split.
  - destruct (Z_le_gt_dec (- t) I) as [|Hlt]; [assumption|exfalso].
    assert (I * W <= - (t + 1) * W) by (apply Z.mul_le_mono_nonneg_r; lia).
    lia.
  - destruct (Z_le_gt_dec I t) as [|Hgt]; [assumption|exfalso].
    assert ((t + 1) * W <= I * W) by (apply Z.mul_le_mono_nonneg_r; lia).
    lia.
Qed.

(** The product of such a quotient with [100.0] (mantissa [100 * 2^46] at
    exponent [-46]): the result has a negative exponent [-k] and is within
    one unit of its last place of the exact product. *)
Lemma SFmul_100_value M a :
  Z.pos M < 2 ^ 53 -> 12 <= a <= 93 ->
  exists M2 k G N,
    SFmul 53 1024 (S754_finite false M (- a))
      (S754_finite false 7036874417766400 (-46))
    = S754_finite false M2 (- k)
    /\ 4 <= k
    /\ (G = 1 \/ G = 2)
    /\ 1 <= N <= 2 ^ 53
    /\ 2 ^ k * G * N = 2 ^ a * 2 ^ 46
    /\ Z.pos M * 7036874417766400 - N < Z.pos M2 * G * N
       <= Z.pos M * 7036874417766400 + N.
Proof.
  intros HM Ha. unfold SFmul.
  change (Z.pos (M * 7036874417766400)) with (Z.pos M * 7036874417766400).
  set (P := Z.pos M * 7036874417766400).
  assert (HPlo : 2 ^ 52 <= P).
  { unfold P. change (2 ^ 52) with 4503599627370496. lia. }
  assert (HPhi : P < 2 ^ 106).
  { unfold P. change (2 ^ 106) with (2 ^ 53 * 2 ^ 53).
    change (2 ^ 53) with 9007199254740992 in *. nia. }
  pose proof (Zdigits2_le P 106 ltac:(lia) ltac:(lia) HPhi) as Hdhi.
  assert (Hdlo : 53 <= Zdigits2 P).
  { destruct (Z_lt_le_dec (Zdigits2 P) 53) as [Hlt|]; [|lia].
    exfalso. pose proof (Zdigits2_lt P ltac:(lia)) as Hlt'.
    assert (2 ^ Zdigits2 P <= 2 ^ 52) by (apply Z.pow_le_mono_r; lia).
    lia. }
  destruct (binary_round_aux_normal (xorb false false) P (- a + -46)
              loc_Exact HPlo ltac:(lia) ltac:(lia))
    as (M2 & g & EM & Hg & HM2 & Hval).
  set (n := Zdigits2 P - 53) in *.
  exists M2, (a + 46 - n - g), (2 ^ g), (2 ^ n).
  replace (- (a + 46 - n - g)) with (- a + -46 + n + g) by lia.
  split; [exact EM|]. split; [lia|].
  split; [destruct Hg as [-> | ->]; [now left | now right]|].
  split.
  - split.
    + assert (0 < 2 ^ n) by (apply Z.pow_pos_nonneg; lia). lia.
    + apply Z.pow_le_mono_r; lia.
  - split; [|exact Hval].
    rewrite <- !Z.pow_add_r by lia. f_equal. lia.
Qed.

(** For a score and a total below [2^40] the dashboard's percentage is the
    integer nearest to the exact share: it is returned, and it is at most
    one half away from [100 * score / total]. *)
Lemma percentage_nearest score total :
  0 <= score < 2 ^ 40 -> 1 <= total < 2 ^ 40 ->
  exists p,
    percentage score total = Return p
    /\ - total <= 2 * (p * total - 100 * score) <= total.
Proof.
  intros [Hs0 Hs] [Ht0 Ht].
  destruct total as [|pt|pt]; try lia.
  destruct score as [|pm|pm]; try lia.
  - exists 0. split; [reflexivity|lia].
  - unfold percentage, Float.truediv, Float.prec, Float.emax.
    cbn [Z.eqb Float.exact].
    destruct (SFdiv_exact_value pm pt Hs Ht)
      as (M1 & a & -> & Ha & HM1 & HA & H1).
    rewrite mul_int_100. unfold Float.prec, Float.emax.
    destruct (SFmul_100_value M1 a HM1 Ha)
      as (M2 & k & G & N & -> & Hk & HG & HN & HW & H2).
    cbn [Float.round cond_Zopp].
    replace (0 <=? - k) with false by (symmetry; apply Z.leb_gt; lia).
    replace (- - k) with k by lia.
    eexists. split; [reflexivity|].
    assert (HK : 0 < 2 ^ k) by (apply Z.pow_pos_nonneg; lia).
    apply (percentage_error_bound (Z.pos pm) (Z.pos pt) (Z.pos M1) (2 ^ a)
             (Z.pos M2) (2 ^ k) G N); try assumption; try lia.
    apply half_even_bound. lia.
Qed.

Lemma share_range p s T :
  0 <= s <= T -> 1 <= T ->
  - T <= 2 * (p * T - 100 * s) <= T -> 0 <= p <= 100.
Proof.
  intros Hs HT Hp. split.
  - destruct (Z_le_gt_dec 0 p) as [|Hneg]; [assumption|exfalso].
    assert (p * T <= -1 * T) by (apply Z.mul_le_mono_nonneg_r; lia). lia.
  - destruct (Z_le_gt_dec p 100) as [|Hbig]; [assumption|exfalso].
    assert (101 * T <= p * T) by (apply Z.mul_le_mono_nonneg_r; lia). lia.
Qed.

Lemma shares_sum p1 p2 p3 s1 s2 s3 T :
  1 <= T -> s1 + s2 + s3 = T ->
  - T <= 2 * (p1 * T - 100 * s1) <= T ->
  - T <= 2 * (p2 * T - 100 * s2) <= T ->
  - T <= 2 * (p3 * T - 100 * s3) <= T ->
  99 <= p1 + p2 + p3 <= 101.
Proof.
  intros HT Hs H1 H2 H3.
  assert (HS : - (3 * T) <= 2 * ((p1 + p2 + p3 - 100) * T) <= 3 * T).
  { replace ((p1 + p2 + p3 - 100) * T)
      with (p1 * T + p2 * T + p3 * T - 100 * (s1 + s2 + s3))
      by (rewrite Hs; ring).
    lia. }
  split.
  - destruct (Z_le_gt_dec 99 (p1 + p2 + p3)) as [|Hlow]; [assumption|exfalso].
    assert ((p1 + p2 + p3 - 100) * T <= -2 * T)
      by (apply Z.mul_le_mono_nonneg_r; lia). lia.
  - destruct (Z_le_gt_dec (p1 + p2 + p3) 101) as [|Hbig]; [assumption|exfalso].
    assert (2 * T <= (p1 + p2 + p3 - 100) * T)
      by (apply Z.mul_le_mono_nonneg_r; lia). lia.
Qed.

(** X16. The dashboard's percentages are the nearest integers: for a caller
    whose three scores are not negative and add up to at least 1 and less
    than [2^40], the dashboard answers, each percentage is at most one half
    away from the exact share [100 * score / sum], so it lies between 0 and
    100, and the three percentages add up to 99, 100 or 101. *)
Theorem dashboard_percentages_nearest `{Runtime}
    w current oid u mind money meaning used total :
  ObjectId_of_str (AuthUser.id current) = Some oid ->
  user_record w (VOid oid) = Some u ->
  counter u "tana_mind" 0 = Return mind ->
  counter u "tana_money" 0 = Return money ->
  counter u "tana_meaning" 0 = Return meaning ->
  counter u "sessions_used" 0 = Return used ->
  counter u "total_sessions" 3 = Return total ->
  0 <= mind -> 0 <= money -> 0 <= meaning ->
  1 <= mind + money + meaning < 2 ^ 40 ->
  let sum := mind + money + meaning in
  exists p_mind p_money p_meaning,
    dashboard current w
    = (Return (Dashboard.mk (get (fields u) "name" (VStr ""))
                 (get (fields u) "purpose" (VStr "Healing"))
                 mind money meaning p_mind p_money p_meaning used total),
       w)
    /\ - sum <= 2 * (p_mind * sum - 100 * mind) <= sum
    /\ - sum <= 2 * (p_money * sum - 100 * money) <= sum
    /\ - sum <= 2 * (p_meaning * sum - 100 * meaning) <= sum
    /\ 0 <= p_mind <= 100 /\ 0 <= p_money <= 100 /\ 0 <= p_meaning <= 100
    /\ 99 <= p_mind + p_money + p_meaning <= 101.
Proof.
  intros Hoid Hu Hmind Hmoney Hmeaning Hused Htotal Bmind Bmoney Bmeaning
    Bsum sum.
  assert (Hmax : Z.max (mind + money + meaning) 1 = sum) by (unfold sum; lia).
  destruct (percentage_nearest mind sum) as (p_mind & Pmind & Nmind);
    [unfold sum; lia|unfold sum; lia|].
  destruct (percentage_nearest money sum) as (p_money & Pmoney & Nmoney);
    [unfold sum; lia|unfold sum; lia|].
  destruct (percentage_nearest meaning sum)
    as (p_meaning & Pmeaning & Nmeaning);
    [unfold sum; lia|unfold sum; lia|].
  exists p_mind, p_money, p_meaning.
  split.
  { unfold dashboard.
    rewrite (to_object_id_Some _ oid) by exact Hoid. run.
    fold (user_record w (VOid oid)). rewrite Hu.
    unfold counter in *.
    rewrite Hmind. run. rewrite Hmoney. run. rewrite Hmeaning. run.
    rewrite Hmax.
    rewrite Pmind. run. rewrite Pmoney. run. rewrite Pmeaning. run.
    rewrite Hused. run. rewrite Htotal. run. reflexivity. }
  repeat (split; [assumption|]).
  split; [apply (share_range _ mind sum); [unfold sum; lia|lia|assumption]|].
  split; [apply (share_range _ money sum); [unfold sum; lia|lia|assumption]|].
  split;
    [apply (share_range _ meaning sum); [unfold sum; lia|lia|assumption]|].
  apply (shares_sum _ _ _ mind money meaning sum); try assumption;
    [lia|reflexivity].
Qed.

Lemma dashboard_percentages_nearest_witness :
  let w := Sample.world VNone 42 in
  ObjectId_of_str (AuthUser.id Sample.current) = Some Sample.asha_id
  /\ user_record w (VOid Sample.asha_id) = Some Sample.asha
  /\ @counter Sample.runtime Sample.asha "tana_mind" 0 = Return 1
  /\ @counter Sample.runtime Sample.asha "tana_money" 0 = Return 1
  /\ @counter Sample.runtime Sample.asha "tana_meaning" 0 = Return 2
  /\ @counter Sample.runtime Sample.asha "sessions_used" 0 = Return 1
  /\ @counter Sample.runtime Sample.asha "total_sessions" 3 = Return 3
  /\ 0 <= 1 /\ 0 <= 2 /\ 1 <= 1 + 1 + 2 < 2 ^ 40
  /\ exists p_mind p_money p_meaning,
       @dashboard Sample.runtime Sample.current w
       = (Return (Dashboard.mk (VStr "Asha") (VStr "Growth") 1 1 2
                    p_mind p_money p_meaning 1 3), w)
       /\ 99 <= p_mind + p_money + p_meaning <= 101.
Proof.
  intros w.
  assert (H1 : ObjectId_of_str (AuthUser.id Sample.current)
               = Some Sample.asha_id) by reflexivity.
  assert (H2 : user_record w (VOid Sample.asha_id) = Some Sample.asha)
    by reflexivity.
  assert (H3 : @counter Sample.runtime Sample.asha "tana_mind" 0 = Return 1)
    by reflexivity.
  assert (H4 : @counter Sample.runtime Sample.asha "tana_money" 0 = Return 1)
    by reflexivity.
  assert (H5 : @counter Sample.runtime Sample.asha "tana_meaning" 0
               = Return 2) by reflexivity.
  assert (H6 : @counter Sample.runtime Sample.asha "sessions_used" 0
               = Return 1) by reflexivity.
  assert (H7 : @counter Sample.runtime Sample.asha "total_sessions" 3
               = Return 3) by reflexivity.
  assert (H8 : 0 <= 1) by lia.
  assert (H9 : 0 <= 2) by lia.
  assert (H10 : 1 <= 1 + 1 + 2 < 2 ^ 40) by (split; [lia|reflexivity]).
  repeat (split; [assumption|]).
  destruct (@dashboard_percentages_nearest Sample.runtime w Sample.current
              Sample.asha_id Sample.asha 1 1 2 1 3
              H1 H2 H3 H4 H5 H6 H7 H8 H8 H9 H10)
    as (a & b & c & Hd & _ & _ & _ & _ & _ & _ & Hs).
  exists a, b, c. split; [exact Hd|exact Hs].
Defined.
